(** * Long-context decomposition pipeline of lctx-agent

    A shallow embedding of the tools under [trae_agent/tools] and of
    [trae_agent/agent/long_context_agent.py], together with the properties
    stated for them.

    Conventions of the embedding.
    - A Python [str] is a list of code points; the code points modelled are
      those below 256, carried by [ascii].  [len], slicing, [split], [strip],
      [startswith], [in] and [join] act on that list as they do in Python.
    - A Python [int] is a [Z].
    - A text file holds bytes (numbers below 256); text is written to it and
      read from it through the UTF-8 codec, as [open(..., encoding='utf-8')]
      does on a POSIX system.
    - The language-model client and the two internal tools of the
      orchestrator are reached through events of a small free monad, so that
      every call that is made is visible in the trace of a run. *)

From Stdlib Require Import List Ascii String ZArith NArith Lia Bool Arith.
From stdpp Require Import base option list gmap strings.
Import ListNotations.

Local Open Scope Z_scope.
Local Open Scope list_scope.

(** ** Python strings *)

Module Py.

Abbreviation str := (list ascii).

(** A literal of the source. *)
Definition lit (s : string) : str := list_ascii_of_string s.

Definition NL : ascii := ascii_of_nat 10.
Definition CR : ascii := ascii_of_nat 13.
Definition DQ : ascii := ascii_of_nat 34.

Definition ascii_eqb (a b : ascii) : bool := Ascii.eqb a b.

Fixpoint str_eqb (s t : str) : bool :=
  match s, t with
  | [], [] => true
  | a :: s', b :: t' => ascii_eqb a b && str_eqb s' t'
  | _, _ => false
  end.

(** [str.isspace] on one code point below 256: the characters that
    [str.strip()] and [str.split()] treat as whitespace. *)
Definition isspace (c : ascii) : bool :=
  let n := nat_of_ascii c in
  ((9 <=? n) && (n <=? 13) || (28 <=? n) && (n <=? 32)
   || (n =? 133) || (n =? 160))%nat.

Fixpoint lstrip (s : str) : str :=
  match s with
  | [] => []
  | c :: s' => if isspace c then lstrip s' else s
  end.

Definition rstrip (s : str) : str := rev (lstrip (rev s)).

(** [s.strip()] *)
Definition strip (s : str) : str := lstrip (rstrip s).

(** [s.startswith(p)] *)
Fixpoint startswith (p s : str) : bool :=
  match p, s with
  | [], _ => true
  | _ :: _, [] => false
  | a :: p', b :: s' => ascii_eqb a b && startswith p' s'
  end.

(** [p in s] *)
Fixpoint contains (p s : str) : bool :=
  startswith p s ||
  match s with
  | [] => false
  | _ :: s' => contains p s'
  end.

(** [s.split(c)] for a one-character separator: never empty. *)
Fixpoint split (c : ascii) (s : str) : list str :=
  match s with
  | [] => [[]]
  | x :: s' =>
      if ascii_eqb x c then [] :: split c s'
      else match split c s' with
           | [] => [[x]]
           | l :: ls => (x :: l) :: ls
           end
  end.

(** [sep.join(parts)] *)
Fixpoint join (sep : str) (parts : list str) : str :=
  match parts with
  | [] => []
  | [p] => p
  | p :: rest => p ++ sep ++ join sep rest
  end.

(** [s.count(c)] for a one-character [c]. *)
Definition count (c : ascii) (s : str) : Z :=
  Z.of_nat (length (filter (fun x => ascii_eqb x c = true) s)).

(** [s.split()]: the maximal runs of non-whitespace characters.  [cur] is
    the run being read, reversed. *)
Fixpoint split_ws_go (cur : str) (s : str) : list str :=
  match s with
  | [] => match cur with [] => [] | _ => [rev cur] end
  | c :: s' =>
      if isspace c
      then match cur with
           | [] => split_ws_go [] s'
           | _ => rev cur :: split_ws_go [] s'
           end
      else split_ws_go (c :: cur) s'
  end.

Definition split_ws (s : str) : list str := split_ws_go [] s.

(** [len(s)] *)
Definition len (s : str) : Z := Z.of_nat (length s).

(** [s[a:b]] for [0 <= a]. *)
Definition slice (s : str) (a b : Z) : str :=
  take (Z.to_nat (b - a)) (drop (Z.to_nat a) s).

(** *** Rendering integers *)

Definition digit_char (d : N) : ascii := ascii_of_N (48 + d).

Fixpoint digits_fuel (fuel : nat) (n : N) : str :=
  match fuel with
  | O => []
  | S f =>
      if (n <? 10)%N then [digit_char n]
      else digits_fuel f (n / 10)%N ++ [digit_char (n mod 10)%N]
  end.

(** Decimal digits of a natural number; the number of binary digits is
    fuel enough. *)
Definition str_of_N (n : N) : str := digits_fuel (S (N.size_nat n)) n.

(** [str(z)] *)
Definition str_of_Z (z : Z) : str :=
  match z with
  | Zneg p => lit "-" ++ str_of_N (Npos p)
  | _ => str_of_N (Z.to_N z)
  end.

(** Thousands separators, on the reversed digits. *)
Fixpoint group3_rev (r : str) : str :=
  match r with
  | a :: b :: c :: ((_ :: _) as rest) =>
      a :: b :: c :: ascii_of_nat 44 :: group3_rev rest
  | _ => r
  end.

Definition commas (digits : str) : str := rev (group3_rev (rev digits)).

(** [f"{z:,}"] *)
Definition format_comma (z : Z) : str :=
  match z with
  | Zneg p => lit "-" ++ commas (str_of_N (Npos p))
  | _ => commas (str_of_N (Z.to_N z))
  end.

End Py.
Export Py.

(** ** Exceptions, tool results and the runtime *)

(** The exceptions the modelled code can meet.  [Exception msg] is one
    raised by a collaborator (the model client, a stand-in tool, the
    control loop of the base agent). *)
Inductive exn : Type :=
| FileNotFoundError (path : str)
| IsADirectoryError (path : str)
| NotADirectoryError (path : str)
| MemoryError
| UnicodeDecodeError
| ZeroDivisionError
| AttributeError (what : str)
| Exception (msg : str).

(** What the Python runtime and the host supply: the text of [str(e)],
    the directory of [tempfile.gettempdir()], and the reach of [seek] and
    [read].  Offsets and sizes up to [io_limit] are served as [FS.read_at]
    describes.  Past it the outcome depends on the host: [read] allocates
    a buffer of the size asked for and needs it to fit a C [ssize_t], the
    file system bounds the offsets it takes, and [seek] reads an offset
    from [2^64] on as a cookie that also holds the state of the decoder.
    [far_read bytes start n] is what [f.seek(start); f.read(n)] gives there
    on a file that holds [bytes]. *)
Class Runtime : Type := {
  exn_str : exn -> str;
  gettempdir : str;
  io_limit : Z;
  io_limit_fits : 0 <= io_limit < 2 ^ 63;
  far_read : list N -> Z -> Z -> exn + str
}.

(** [ToolExecResult] of [trae_agent.tools.base]: [error_code] defaults
    to 0, [output] and [error] to [None]. *)
Record ToolExecResult : Type := mkToolExecResult {
  output : option str;
  error : option str;
  error_code : Z
}.

Definition ok_result (out : str) : ToolExecResult :=
  {| output := Some out; error := None; error_code := 0 |}.

Definition error_result (msg : str) (code : Z) : ToolExecResult :=
  {| output := None; error := Some msg; error_code := code |}.

(** Truth value of an optional string argument: absent and empty are
    both false. *)
Definition truthy (a : option str) : bool :=
  match a with
  | Some (_ :: _) => true
  | _ => false
  end.

(** [isinstance(a, int)] for an optional integer argument. *)
Definition is_int (a : option Z) : bool :=
  match a with
  | Some _ => true
  | None => false
  end.

(** [f"{a}"] for an argument that may be absent. *)
Definition str_of_arg (a : option Z) : str :=
  match a with
  | Some z => str_of_Z z
  | None => lit "None"
  end.

(** ** Files *)

Module FS.

(** UTF-8 of one code point below 256. *)
Definition utf8_encode_char (c : ascii) : list N :=
  let n := N_of_ascii c in
  if (n <? 128)%N then [n] else [192 + n / 64; 128 + n mod 64]%N.

Definition utf8_encode (s : str) : list N := flat_map utf8_encode_char s.

(** Strict UTF-8 decoding, [None] for [UnicodeDecodeError].  Lead bytes
    from 196 on start code points outside the modelled range and are
    rejected too; no file written by [write_text] contains one. *)
Fixpoint utf8_decode (bs : list N) : option str :=
  match bs with
  | [] => Some []
  | b :: rest =>
      if (b <? 128)%N then
        match utf8_decode rest with
        | Some s => Some (ascii_of_N b :: s)
        | None => None
        end
      else if ((194 <=? b) && (b <=? 195))%N then
        match rest with
        | b2 :: rest' =>
            if ((128 <=? b2) && (b2 <? 192))%N then
              match utf8_decode rest' with
              | Some s => Some (ascii_of_N (64 * (b - 192) + (b2 - 128)) :: s)
              | None => None
              end
            else None
        | [] => None
        end
      else None
  end.

(** Universal newlines, the default of [open] for reading: a carriage
    return, alone or followed by a line feed, is read as one line feed. *)
Fixpoint universal_newlines (s : str) : str :=
  match s with
  | [] => []
  | c :: rest =>
      if ascii_eqb c CR then
        NL :: match rest with
              | d :: rest' =>
                  if ascii_eqb d NL then universal_newlines rest'
                  else universal_newlines rest
              | [] => []
              end
      else c :: universal_newlines rest
  end.

(** The file system: the regular files with their bytes, and the
    directories. *)
Record world : Type := mkWorld {
  files : gmap (list ascii) (list N);
  dirs : gset (list ascii)
}.

(** [os.path.exists] *)
Definition exists_ (w : world) (p : str) : bool :=
  bool_decide (is_Some (files w !! p)) || bool_decide (p ∈ dirs w).

(** [os.path.join(a, b)] on POSIX. *)
Definition path_join (a b : str) : str :=
  if startswith (lit "/") b then b
  else match a with
       | [] => b
       | _ => if ascii_eqb (List.last a NL) "/"%char then a ++ b
              else a ++ lit "/" ++ b
       end.

(** [with open(p, 'r', encoding='utf-8') as f: f.seek(start); f.read(n)]
    for [0 <= start] and [0 <= n]: [open] comes first and fails on a path
    that is no regular file; within [io_limit], [seek] positions the byte
    stream, [read] decodes from there and returns [n] characters; past
    [io_limit] the outcome is the host's.  The decoder is run on the whole
    remainder; in a file written by [write_text] the one byte it can
    reject is the first after the [seek]. *)
Definition read_at `{Runtime} (w : world) (p : str) (start n : Z)
  : exn + str :=
  match files w !! p with
  | Some bytes =>
      if (start <=? io_limit) && (n <=? io_limit) then
        match utf8_decode (drop (Z.to_nat start) bytes) with
        | Some s => inr (take (Z.to_nat n) (universal_newlines s))
        | None => inl UnicodeDecodeError
        end
      else far_read bytes start n
  | None =>
      if bool_decide (p ∈ dirs w) then inl (IsADirectoryError p)
      else inl (FileNotFoundError p)
  end.

(** [with open(p, 'r', encoding='utf-8') as f: f.read()] *)
Definition read_all `{Runtime} (w : world) (p : str) : exn + str :=
  match files w !! p with
  | Some bytes =>
      match utf8_decode bytes with
      | Some s => inr (universal_newlines s)
      | None => inl UnicodeDecodeError
      end
  | None =>
      if bool_decide (p ∈ dirs w) then inl (IsADirectoryError p)
      else inl (FileNotFoundError p)
  end.

(** [with open(p, 'w', encoding='utf-8') as f: f.write(text)] in the
    directory [dir] of [p]: the file is created or replaced; the directory
    has to exist and [p] must not name a directory.  [open] fails before
    the file is touched.  A string of the embedding has a UTF-8 encoding,
    so [f.write] succeeds on every [text]; a Python string that holds a
    lone surrogate, on which [f.write] raises after [open] has emptied the
    file, is no string of the embedding. *)
Definition write_text (w : world) (dir p : str) (text : str)
  : exn + world :=
  if bool_decide (p ∈ dirs w) then inl (IsADirectoryError p)
  else if bool_decide (dir ∈ dirs w)
  then inr {| files := <[p := utf8_encode text]> (files w); dirs := dirs w |}
  else if bool_decide (is_Some (files w !! dir))
  then inl (NotADirectoryError p)
  else inl (FileNotFoundError p).



End FS.

(** ** Calls to collaborators *)

(** A computation that calls collaborators: it returns, or it makes the
    call [e] and goes on from the answer. *)
Inductive prog (E : Type -> Type) (A : Type) : Type :=
| Ret (a : A)
| Vis (X : Type) (e : E X) (k : X -> prog E A).

Arguments Ret {E A} a.
Arguments Vis {E A X} e k.

Fixpoint bind {E A B} (p : prog E A) (f : A -> prog E B) : prog E B :=
  match p with
  | Ret a => f a
  | Vis e k => Vis e (fun x => bind (k x) f)
  end.

(** One entry of a trace: a call that was made, with its answer. *)
Record call (E : Type -> Type) : Type := Call {
  call_type : Type;
  call_event : E call_type;
  call_answer : call_type
}.

Arguments Call {E call_type} call_event call_answer.

(** Runs [p] against collaborators that answer by [h], from their state
    [s]: the result, their final state, and the calls made, in order. *)
Fixpoint run {E A S} (h : forall X, E X -> S -> X * S) (p : prog E A) (s : S)
  : A * S * list (call E) :=
  match p with
  | Ret a => (a, s, [])
  | Vis e k =>
      let '(x, s1) := h _ e s in
      let '(a, s2, tr) := run h (k x) s1 in
      (a, s2, Call e x :: tr)
  end.

(** ** The model client *)

Record LLMMessage : Type := mkLLMMessage {
  role : str;
  content : str
}.

(** The part of [ModelConfig] a tool sets itself; the other fields are
    copied from the client's own configuration. [temperature] is in
    tenths. *)
Record ModelConfig : Type := mkModelConfig {
  model : str;
  max_tokens : Z;
  temperature : Z
}.

(** A client: the model of its [model_config] when it has one. *)
Record LLMClient : Type := mkLLMClient {
  model_config : option str
}.

(** What [llm_client.chat] does: it raises, returns no response, or
    returns a response whose [content] may be [None]. *)
Inductive chat_outcome : Type :=
| Raises (e : exn)
| NoResponse
| Response (content : option str).

Inductive llm_event : Type -> Type :=
| Chat (messages : list LLMMessage) (cfg : ModelConfig) : llm_event chat_outcome.

(** ** MetaPromptTool *)

Module MetaPromptTool.

Record t : Type := mk { llm_client : option LLMClient }.

Record args : Type := mkArgs {
  simple_prompt : option str;
  task_context : option str
}.

(** [META_PROMPT_SYSTEM_PROMPT] of [trae_agent/prompt/meta_tool_prompt.py] *)
Definition META_PROMPT_SYSTEM_PROMPT : str :=
  lit "You are an expert prompt engineer specializing in optimizing prompts for sub-agent chunk processing in long context scenarios.

**Your Core Objectives:**
1. **Maximize Output Efficiency**: Design prompts that produce concise, essential information only
2. **Optimize for Partial Data**: Ensure prompts work effectively with incomplete/fragmented input chunks
3. **Enable Independent Processing**: Each chunk must be processable without requiring context from other chunks
4. **Minimize Reasoning Overhead**: Create prompts that require minimal reasoning steps per chunk
5. **Ensure Result Aggregation**: Design outputs that can be easily combined across multiple chunks

**Critical Constraints for Sub-Agent Chunk Processing:**
- **Input Reality**: The sub-agent receives ONLY a text fragment, not complete documents
- **Output Brevity**: Responses must be concise and focused on extracting key information
- **Partial Information Handling**: Prompts must gracefully handle incomplete data without speculation
- **Consistency Requirements**: Analysis approach must remain uniform across all chunks
- **Integration Design**: Outputs should facilitate easy synthesis into final results

**Prompt Enhancement Guidelines:**
- **Simplify Instructions**: Remove unnecessary complexity that doesn't serve chunk-level processing
- **Add Chunk-Specific Context**: Include guidance for handling fragment-level information
- **Emphasize Conciseness**: Explicitly instruct for brief, focused outputs
- **Handle Boundaries**: Address how to process content that may be cut mid-sentence or mid-concept
- **Specify Output Constraints**: Define exact output format and length limits
- **Reduce Cognitive Load**: Design for fast, efficient processing without deep reasoning chains

**Special Instructions for Enhanced Prompts:**
- Include explicit instructions to " ++ DQ :: lit "focus only on information available in this chunk" ++ DQ :: lit "
- Add output length constraints (e.g., " ++ DQ :: lit "respond in 2-3 sentences maximum" ++ DQ :: lit ")
- Specify how to handle incomplete information (e.g., " ++ DQ :: lit "if information is partial, note limitations" ++ DQ :: lit ")
- Emphasize extraction over interpretation to maintain consistency
- Design for parallel processing where chunks can be analyzed simultaneously

Return ONLY the enhanced prompt without explanations or meta-commentary.".

Definition user_message (simple_prompt task_context : str) : str :=
  let m := lit "Transform this simple prompt into a high-quality, detailed prompt optimized for chunk-based processing:

Simple Prompt: " ++ simple_prompt in
  match task_context with
  | [] => m
  | _ => m ++ [NL; NL] ++ lit "Task or Goal: " ++ task_context
  end.

Definition request_config (c : LLMClient) : ModelConfig :=
  match model_config c with
  | Some m => {| model := m; max_tokens := 1500; temperature := 7 |}
  | None => {| model := lit "claude-3-haiku-20240307";
               max_tokens := 1500; temperature := 7 |}
  end.

(** The success report: the title line, a blank line, the enhanced
    prompt, a blank line, the separator, the summary. *)
Definition format_result (simple_prompt enhanced_prompt : str) : str :=
  lit "Enhanced Prompt Generated Successfully:

" ++ enhanced_prompt ++ lit "

---
Optimization Summary:
- Original prompt length: " ++ str_of_Z (len simple_prompt)
  ++ lit " characters  " ++ [NL]
  ++ lit "- Enhanced prompt length: " ++ str_of_Z (len enhanced_prompt)
  ++ lit " characters
- Optimized for chunk-based processing: Yes
- CoT complexity reduction: Applied".

Section Execute.
Context `{Runtime}.

Definition execute (self : t) (arguments : args) : prog llm_event ToolExecResult :=
  let task_context := default [] (task_context arguments) in
  match simple_prompt arguments with
  | None | Some [] => Ret (error_result (lit "simple_prompt is required") 1)
  | Some simple_prompt =>
      match llm_client self with
      | None =>
          Ret (error_result (lit "LLM client not available for meta_prompt_tool") 1)
      | Some client =>
          let messages :=
            [ {| role := lit "system"; content := META_PROMPT_SYSTEM_PROMPT |};
              {| role := lit "user";
                 content := user_message simple_prompt task_context |} ] in
          Vis (Chat messages (request_config client)) (fun response =>
            match response with
            | Raises e =>
                Ret (error_result
                       (lit "Error generating meta prompt: " ++ exn_str e) 1)
            | NoResponse | Response None | Response (Some []) =>
                Ret (error_result (lit "Failed to generate enhanced prompt") 1)
            | Response (Some content) =>
                let enhanced_prompt := strip content in
                Ret (ok_result (format_result simple_prompt enhanced_prompt))
            end)
      end
  end.

End Execute.

End MetaPromptTool.

(** ** TextChunkTool *)

Module TextChunkTool.

Record t : Type := mk { llm_client : option LLMClient }.

Record args : Type := mkArgs {
  file_path : option str;
  start_pos : option Z;
  end_pos : option Z;
  query : option str;
  enhanced_prompt : option str;
  chunk_id : option str
}.

Definition default_chunk_id (start_pos end_pos : option Z) : str :=
  lit "chunk_" ++ str_of_arg start_pos ++ lit "_" ++ str_of_arg end_pos.

Definition system_prompt : str :=
  lit "You are an expert text analysis agent specialized in processing text chunks as part of a larger long-context analysis task.

**Key Guidelines:**
- Focus exclusively on the provided text chunk
- Answer based solely on information available in this chunk
- If information is not available in this chunk, clearly state this limitation
- Maintain objectivity and accuracy in your analysis
- Follow the enhanced prompt instructions precisely
- Be concise but thorough in your response
- Consider that this chunk is part of a larger document
- Format your response for easy integration with other chunk results

**Important:** This is a partial view of a larger text. Focus on extracting and analyzing information present in this specific chunk while acknowledging the partial nature of the context.".

Definition user_message (enhanced_prompt query chunk_id : str)
  (start_pos end_pos : Z) (chunk_text : str) : str :=
  lit "**Enhanced Instructions:** " ++ enhanced_prompt ++ lit "

**Query to Answer:** " ++ query ++ lit "

**Text Chunk Information:**
- Chunk ID: " ++ chunk_id ++ lit "
- Position: " ++ str_of_Z start_pos ++ lit ":" ++ str_of_Z end_pos ++ lit "
- Size: " ++ str_of_Z (len chunk_text) ++ lit " characters

**Text Chunk Content:**
" ++ chunk_text ++ lit "

---

Please process this text chunk according to the enhanced instructions and answer the query. Remember that this is only a partial view of a larger document.".

Definition request_config (c : LLMClient) : ModelConfig :=
  match model_config c with
  | Some m => {| model := m; max_tokens := 2500; temperature := 3 |}
  | None => {| model := lit "claude-3-sonnet-20240229";
               max_tokens := 2500; temperature := 3 |}
  end.

(** The report with its metadata. *)
Definition format_result (chunk_id : str) (start_pos end_pos : Z)
  (query chunk_text response_content : str) : str :=
  lit "**Chunk Processing Result**

**Chunk Info:** " ++ chunk_id ++ lit " (position " ++ str_of_Z start_pos
  ++ lit ":" ++ str_of_Z end_pos ++ lit ")
**Query:** " ++ query ++ lit "
**Chunk Size:** " ++ format_comma (len chunk_text) ++ lit " characters

**Analysis Result:**
" ++ strip response_content ++ lit "

---
**Processing Status:** Complete
**Tokens Used:** ~" ++ str_of_Z (len chunk_text / 4) ++ lit " input + ~"
  ++ str_of_Z (len response_content / 4) ++ lit " output".

Section Execute.
Context `{Runtime}.

Definition execute (self : t) (w : FS.world) (arguments : args)
  : prog llm_event ToolExecResult :=
  let chunk_id :=
    default (default_chunk_id (start_pos arguments) (end_pos arguments))
            (chunk_id arguments) in
  if negb (truthy (file_path arguments) && is_int (start_pos arguments)
           && is_int (end_pos arguments) && truthy (query arguments)
           && truthy (enhanced_prompt arguments))
  then Ret (error_result
         (lit "Required parameters: file_path, start_pos, end_pos, query, enhanced_prompt") 1)
  else
  match file_path arguments, start_pos arguments, end_pos arguments,
        query arguments, enhanced_prompt arguments with
  | Some file_path, Some start_pos, Some end_pos,
    Some query, Some enhanced_prompt =>
      if (start_pos <? 0) || (end_pos <=? start_pos)
      then Ret (error_result
             (lit "Invalid position range: start_pos must be >= 0 and end_pos must be > start_pos") 1)
      else
      match llm_client self with
      | None =>
          Ret (error_result (lit "LLM client not available for text_chunk_tool") 1)
      | Some client =>
          if negb (FS.exists_ w file_path)
          then Ret (error_result (lit "File not found: " ++ file_path) 1)
          else
          match FS.read_at w file_path start_pos (end_pos - start_pos) with
          | inl e =>
              Ret (error_result
                     (lit "Error processing text chunk: " ++ exn_str e) 1)
          | inr chunk_text =>
              match strip chunk_text with
              | [] =>
                  Ret (error_result
                         (lit "No content found in range " ++ str_of_Z start_pos
                          ++ lit ":" ++ str_of_Z end_pos) 1)
              | _ :: _ =>
                  let messages :=
                    [ {| role := lit "system"; content := system_prompt |};
                      {| role := lit "user";
                         content := user_message enhanced_prompt query chunk_id
                                      start_pos end_pos chunk_text |} ] in
                  Vis (Chat messages (request_config client)) (fun response =>
                    match response with
                    | Raises e =>
                        Ret (error_result
                               (lit "Error processing text chunk: " ++ exn_str e) 1)
                    | NoResponse | Response None | Response (Some []) =>
                        Ret (error_result (lit "Failed to process text chunk") 1)
                    | Response (Some content) =>
                        Ret (ok_result
                               (format_result chunk_id start_pos end_pos query
                                  chunk_text content))
                    end)
              end
          end
      end
  | _, _, _, _, _ =>
      Ret (error_result
         (lit "Required parameters: file_path, start_pos, end_pos, query, enhanced_prompt") 1)
  end.

End Execute.

End TextChunkTool.

(** ** Loops over lines *)

(** [for i, x in enumerate(l): if p(x): ...; break]: the first index
    whose element satisfies [p]. *)
Fixpoint find_index {A} (p : A -> bool) (l : list A) : option nat :=
  match l with
  | [] => None
  | x :: l' => if p x then Some O else option_map S (find_index p l')
  end.

(** [for x in l: if p(x): break; acc.append(x)] *)
Fixpoint take_until {A} (p : A -> bool) (l : list A) : list A :=
  match l with
  | [] => []
  | x :: l' => if p x then [] else x :: take_until p l'
  end.

Definition nonempty (s : str) : bool :=
  match s with
  | [] => false
  | _ :: _ => true
  end.

(** ** EnhancedChunkTool *)

Inductive orch_event : Type -> Type :=
| MetaExecute (tool : MetaPromptTool.t) (arguments : MetaPromptTool.args)
    : orch_event (exn + ToolExecResult)
| ChunkExecute (tool : TextChunkTool.t) (arguments : TextChunkTool.args)
    : orch_event (exn + ToolExecResult).

Module EnhancedChunkTool.

Record t : Type := mk {
  llm_client : option LLMClient;
  meta_tool : option MetaPromptTool.t;
  chunk_tool : option TextChunkTool.t
}.

(** [__init__] *)
Definition init (llm_client : option LLMClient) : t :=
  {| llm_client := llm_client;
     meta_tool := match llm_client with
                  | Some _ => Some (MetaPromptTool.mk llm_client)
                  | None => None
                  end;
     chunk_tool := match llm_client with
                   | Some _ => Some (TextChunkTool.mk llm_client)
                   | None => None
                   end |}.

Record args : Type := mkArgs {
  file_path : option str;
  start_pos : option Z;
  end_pos : option Z;
  query : option str;
  simple_prompt : option str;
  task_context : option str;
  chunk_id : option str
}.

Definition SUCCESS_MARKER : str := lit "Enhanced Prompt Generated Successfully:".
Definition SEPARATOR : str := lit "---".

(** The second search of [_extract_enhanced_prompt]: a line that is not
    blank and starts neither with the title nor with the separator. *)
Definition fallback_line (line : str) : bool :=
  nonempty (strip line) && negb (startswith (lit "Enhanced Prompt") line)
  && negb (startswith SEPARATOR line).

Definition prompt_start_idx (lines : list str) : option nat :=
  match find_index (contains SUCCESS_MARKER) lines with
  | Some i => Some (i + 2)%nat
  | None => find_index fallback_line lines
  end.

(** [_extract_enhanced_prompt].  No operation of its [try] block raises
    on a string, so the handler is not reached and is left out. *)
Definition _extract_enhanced_prompt (meta_output : str) : str :=
  let lines := split NL meta_output in
  match prompt_start_idx lines with
  | None => strip meta_output
  | Some i =>
      let enhanced_lines :=
        take_until (fun line => str_eqb (strip line) SEPARATOR) (drop i lines) in
      strip (join [NL] enhanced_lines)
  end.

(** The inner loop of the second search of [_clean_chunk_output],
    [for j in range(i, len(lines))], reading [lines[j]]: the outer [None]
    is an [IndexError]. *)
Fixpoint first_content (lines : list str) (js : list nat)
  : option (option nat) :=
  match js with
  | [] => Some None
  | j :: js' =>
      match lines !! j with
      | None => None
      | Some line =>
          if negb (startswith (lit "**") line) && nonempty (strip line)
          then Some (Some j)
          else first_content lines js'
      end
  end.

Definition result_start_idx (lines : list str) : option nat :=
  match find_index (contains (lit "**Analysis Result:**")) lines with
  | Some i => Some (Some (i + 1)%nat)
  | None =>
      match find_index (contains (lit "**Chunk Processing Result**")) lines with
      | Some i => first_content lines (seq i (length lines - i))
      | None => Some None
      end
  end
  ≫= fun found =>
  Some (match found with
        | Some i => i
        | None => Nat.min 5 (length lines)
        end).

(** A line that ends the analysis. *)
Definition stop_line (line : str) : bool :=
  startswith (lit "---") line
  || contains (lit "**Processing Status:**") line
  || contains (lit "**Tokens Used:**") line.

Definition analysis_content (lines : list str) (start : nat) : str :=
  strip (join [NL] (take_until stop_line (drop start lines))).

Definition clean_result (chunk_id : str) (start_pos end_pos : Z)
  (analysis_content : str) : str :=
  lit "**Chunk Analysis Result**

**Chunk:** " ++ chunk_id ++ lit " (position " ++ str_of_Z start_pos
  ++ lit ":" ++ str_of_Z end_pos ++ lit ")
**Size:** " ++ format_comma (end_pos - start_pos) ++ lit " characters

**Analysis:**
" ++ analysis_content ++ lit "

**Status:** Processing complete".

(** The [try] block of [_clean_chunk_output]; [None] when it raises. *)
Definition _clean_chunk_output_try (chunk_output chunk_id : str)
  (start_pos end_pos : Z) : option str :=
  let lines := split NL chunk_output in
  result_start_idx lines ≫= fun start =>
  Some (clean_result chunk_id start_pos end_pos (analysis_content lines start)).

(** [_clean_chunk_output]: the original output when cleaning fails. *)
Definition _clean_chunk_output (chunk_output chunk_id : str)
  (start_pos end_pos : Z) : str :=
  match _clean_chunk_output_try chunk_output chunk_id start_pos end_pos with
  | Some clean => clean
  | None => chunk_output
  end.

Section Execute.
Context `{Runtime}.

Definition REQUIRED : str :=
  lit "Required parameters: file_path, start_pos, end_pos, query, simple_prompt".

Definition execute (self : t) (arguments : args)
  : prog orch_event ToolExecResult :=
  match llm_client self with
  | None =>
      Ret (error_result (lit "LLM client not available for enhanced_chunk_tool") 1)
  | Some _ =>
  match meta_tool self, chunk_tool self with
  | Some meta, Some chunk =>
      let task_context := default [] (task_context arguments) in
      let chunk_id :=
        default (TextChunkTool.default_chunk_id (start_pos arguments)
                   (end_pos arguments))
                (chunk_id arguments) in
      if negb (truthy (file_path arguments) && is_int (start_pos arguments)
               && is_int (end_pos arguments) && truthy (query arguments)
               && truthy (simple_prompt arguments))
      then Ret (error_result REQUIRED 1)
      else
      match file_path arguments, start_pos arguments, end_pos arguments,
            query arguments, simple_prompt arguments with
      | Some file_path, Some start_pos, Some end_pos,
        Some query, Some simple_prompt =>
          let meta_args :=
            {| MetaPromptTool.simple_prompt := Some simple_prompt;
               MetaPromptTool.task_context := Some task_context |} in
          Vis (MetaExecute meta meta_args) (fun meta_outcome =>
            match meta_outcome with
            | inl e =>
                Ret (error_result
                       (lit "Enhanced chunk processing failed: " ++ exn_str e) 1)
            | inr meta_result =>
                match error meta_result with
                | Some err =>
                    Ret (error_result
                           (lit "Internal prompt enhancement failed: " ++ err) 1)
                | None =>
                    match output meta_result with
                    | None =>
                        (* [None.split] raises, and so does [None.strip]
                           in the handler of the extraction *)
                        Ret (error_result
                               (lit "Enhanced chunk processing failed: "
                                ++ exn_str (AttributeError (lit "strip"))) 1)
                    | Some meta_output =>
                        let enhanced_prompt :=
                          _extract_enhanced_prompt meta_output in
                        let chunk_args :=
                          {| TextChunkTool.file_path := Some file_path;
                             TextChunkTool.start_pos := Some start_pos;
                             TextChunkTool.end_pos := Some end_pos;
                             TextChunkTool.query := Some query;
                             TextChunkTool.enhanced_prompt := Some enhanced_prompt;
                             TextChunkTool.chunk_id := Some chunk_id |} in
                        Vis (ChunkExecute chunk chunk_args) (fun chunk_outcome =>
                          match chunk_outcome with
                          | inl e =>
                              Ret (error_result
                                     (lit "Enhanced chunk processing failed: "
                                      ++ exn_str e) 1)
                          | inr chunk_result =>
                              match error chunk_result with
                              | Some err =>
                                  Ret (error_result
                                         (lit "Internal chunk processing failed: "
                                          ++ err)
                                         (error_code chunk_result))
                              | None =>
                                  (* on [None] the cleaning raises at once
                                     and hands [None] back *)
                                  Ret {| output :=
                                           option_map
                                             (fun chunk_output =>
                                                _clean_chunk_output chunk_output
                                                  chunk_id start_pos end_pos)
                                             (output chunk_result);
                                         error := None;
                                         error_code := 0 |}
                              end
                          end)
                    end
                end
            end)
      | _, _, _, _, _ => Ret (error_result REQUIRED 1)
      end
  | _, _ => Ret (error_result (lit "Internal tools not properly initialized") 1)
  end
  end.

(** The two internal tools as they are: [self.meta_tool.execute] and
    [self.chunk_tool.execute], the latter reading the files of [w]. *)
Definition internal_tool (w : FS.world) {X} (e : orch_event X)
  : prog llm_event X :=
  match e in orch_event X return prog llm_event X with
  | MetaExecute tool arguments =>
      bind (MetaPromptTool.execute tool arguments) (fun r => Ret (inr r))
  | ChunkExecute tool arguments =>
      bind (TextChunkTool.execute tool w arguments) (fun r => Ret (inr r))
  end.

(** The internal tools as collaborators of the orchestrator: each call is
    answered by the tool itself, run against the model client [llm]. *)
Definition tools_handler {S} (llm : forall X, llm_event X -> S -> X * S)
  (w : FS.world) : forall X, orch_event X -> S -> X * S :=
  fun X e s => let '(x, s', _) := run llm (internal_tool w e) s in (x, s').

End Execute.

End EnhancedChunkTool.

(** ** The agent's attributes and the state tools act on *)

(** The attributes of the agent that the context tool reads and writes
    through its back-reference. *)
Record agent_attrs : Type := mkAgent {
  temp_dir : str;
  context_file_path : option str
}.

(** [agent.context_file_path = p] *)
Definition set_context_file_path (a : agent_attrs) (p : str) : agent_attrs :=
  {| temp_dir := temp_dir a; context_file_path := Some p |}.

(** The agent object and the file system. *)
Record state : Type := mkState {
  fs : FS.world;
  agent : agent_attrs
}.

(** ** ContextFileManagerTool *)

Module ContextFileManagerTool.

(** [has_agent]: [self.agent] is set, and refers to the agent of the
    state. *)
Record t : Type := mk { has_agent : bool }.

Record args : Type := mkArgs {
  action : option str;
  context : option str;
  chunk_size : option Z;
  overlap : option Z
}.

Definition save_report (context_file : str) (file_size lines words : Z) : str :=
  lit "Context saved successfully!
File path: " ++ context_file ++ lit "
Statistics:
- File size: " ++ format_comma file_size ++ lit " characters
- Lines: " ++ format_comma lines ++ lit "
- Words: " ++ format_comma words ++ lit "
- Estimated tokens: " ++ format_comma (file_size / 4) ++ lit " (rough estimate)

The context file is now ready for chunk-based processing.".

(** The statistics [_save_context] computes: [file_size], [lines],
    [words]. *)
Definition statistics (context : str) : Z * Z * Z :=
  let file_size := len context in
  let lines := count NL context + 1 in
  let words := Z.of_nat (length (split_ws context)) in
  (file_size, lines, words).

(** The loop over [range(num_chunks)]: the boundaries appended to the
    report, numbered from 1, up to and including the first whose end
    reaches [total_size]. *)
Fixpoint boundaries_loop (total_size chunk_size overlap : Z) (range : list Z)
  : list (Z * Z * Z) :=
  match range with
  | [] => []
  | i :: range' =>
      let start := i * (chunk_size - overlap) in
      let end_ := Z.min (start + chunk_size) total_size in
      (i + 1, start, end_) ::
      (if end_ >=? total_size then []
       else boundaries_loop total_size chunk_size overlap range')
  end.

(** [range(n)] *)
Definition range (n : Z) : list Z := map Z.of_nat (seq 0 (Z.to_nat n)).

(** [num_chunks], for [chunk_size <> overlap]. *)
Definition num_chunks (total_size chunk_size overlap : Z) : Z :=
  Z.max 1 ((total_size - overlap) / (chunk_size - overlap)).

(** The boundaries [(start, end)] listed by [_get_chunk_info]. *)
Definition chunk_boundaries (total_size chunk_size overlap : Z) : list (Z * Z) :=
  map (fun b => (snd (fst b), snd b))
    (boundaries_loop total_size chunk_size overlap
       (range (num_chunks total_size chunk_size overlap))).

Definition boundary_line (b : Z * Z * Z) : str :=
  let '(number, start, end_) := b in
  [NL] ++ lit "Chunk " ++ str_of_Z number ++ lit ": " ++ str_of_Z start
  ++ lit ":" ++ str_of_Z end_.

Definition chunk_report (context_file : str)
  (total_size chunk_size overlap : Z) : str :=
  let num_chunks := num_chunks total_size chunk_size overlap in
  lit "Chunk Analysis:
Context file: " ++ context_file ++ lit "
Total size: " ++ format_comma total_size ++ lit " characters
Chunk size: " ++ format_comma chunk_size ++ lit " characters
Overlap: " ++ format_comma overlap ++ lit " characters  " ++ [NL]
  ++ lit "Estimated chunks: " ++ str_of_Z num_chunks ++ lit "

Chunk boundaries (start:end):"
  ++ concat (map boundary_line
       (boundaries_loop total_size chunk_size overlap (range num_chunks))).

Definition plan_report (chunk_size overlap : Z) : str :=
  lit "Chunking Strategy Planning:

**Recommended Settings:**
- Chunk size: " ++ format_comma chunk_size ++ lit " characters (~"
  ++ format_comma (chunk_size / 4) ++ lit " tokens)
- Overlap: " ++ format_comma overlap ++ lit " characters (to preserve context continuity)

**Semantic Considerations:**
1. Try to break at paragraph boundaries when possible
2. Maintain context for references and pronouns
3. Consider document structure (sections, chapters, etc.)
4. Preserve tables and code blocks within single chunks

**Processing Tips:**
1. Use meta_prompt_tool to create consistent prompts across chunks
2. Design prompts that work well with partial information  " ++ [NL]
  ++ lit "3. Plan for result integration and consistency checking
4. Consider chunk dependencies for complex reasoning tasks

Use get_chunk_info action to see exact chunk boundaries before processing.".

Section Execute.
Context `{Runtime}.

(** [_save_context]: the result and the new state, or the exception
    that leaves it. *)
Definition _save_context (self : t) (arguments : args) (s : state)
  : exn + ToolExecResult * state :=
  match context arguments with
  | None | Some [] =>
      inr (error_result (lit "Context text is required for save_context action") 1, s)
  | Some context =>
      let temp_dir := if has_agent self then temp_dir (agent s) else gettempdir in
      let context_file := FS.path_join temp_dir (lit "context.txt") in
      match FS.write_text (fs s) temp_dir context_file context with
      | inl e => inl e
      | inr fs' =>
          let agent' :=
            if has_agent self
            then set_context_file_path (agent s) context_file
            else agent s in
          let '(file_size, lines, words) := statistics context in
          inr (ok_result (save_report context_file file_size lines words),
               {| fs := fs'; agent := agent' |})
      end
  end.

(** [_get_chunk_info]; it changes nothing. *)
Definition _get_chunk_info (self : t) (arguments : args) (s : state)
  : exn + ToolExecResult :=
  let chunk_size := default 8000 (chunk_size arguments) in
  let overlap := default 200 (overlap arguments) in
  match (if has_agent self then context_file_path (agent s) else None) with
  | None | Some [] =>
      inr (error_result
             (lit "No context file found. Please save context first using 'save_context' action.") 1)
  | Some context_file =>
      if negb (FS.exists_ (fs s) context_file)
      then inr (error_result (lit "Context file not found: " ++ context_file) 1)
      else
      match FS.read_all (fs s) context_file with
      | inl e => inl e
      | inr content =>
          let total_size := len content in
          if chunk_size - overlap =? 0 then inl ZeroDivisionError
          else inr (ok_result (chunk_report context_file total_size chunk_size overlap))
      end
  end.

Definition _plan_chunks (arguments : args) : ToolExecResult :=
  let chunk_size := default 8000 (chunk_size arguments) in
  let overlap := default 200 (overlap arguments) in
  ok_result (plan_report chunk_size overlap).

Definition caught (e : exn) : ToolExecResult :=
  error_result (lit "Error in context_file_manager: " ++ exn_str e) 1.

Definition execute (self : t) (arguments : args) (s : state)
  : ToolExecResult * state :=
  let action_is name :=
    match action arguments with
    | Some a => str_eqb a (lit name)
    | None => false
    end in
  if action_is "save_context" then
    match _save_context self arguments s with
    | inr (r, s') => (r, s')
    | inl e => (caught e, s)
    end
  else if action_is "get_chunk_info" then
    match _get_chunk_info self arguments s with
    | inr r => (r, s)
    | inl e => (caught e, s)
    end
  else if action_is "plan_chunks" then (_plan_chunks arguments, s)
  else
    (error_result
       (lit "Unknown action: " ++ default (lit "None") (action arguments)) 1, s).

End Execute.

End ContextFileManagerTool.

(** ** LongContextAgent *)

Module LongContextAgent.



(** [__init__]: [mkdtemp] makes the directory [name], which it chose under
    the temporary directory with the prefix [long_context_]. *)
Definition init (name : str) (w : FS.world) : state :=
  {| fs := {| FS.files := FS.files w; FS.dirs := {[ name ]} ∪ FS.dirs w |};
     agent := {| temp_dir := name; context_file_path := None |} |}.


Section ExecuteTask.
Context `{Collaborators}.


End ExecuteTask.

End LongContextAgent.

(** ** Vocabulary of the properties *)

(** The contiguous pieces of [s] that are [k] characters long. *)
Fixpoint windows (k : nat) (s : str) : list str :=
  match s with
  | [] => if (k =? 0)%nat then [[]] else []
  | _ :: s' =>
      (if (k <=? length s)%nat then [take k s] else []) ++ windows k s'
  end.

(** [e] and [s] have a piece of [k] characters in common. *)
Definition shares_fragment (k : nat) (e s : str) : bool :=
  existsb (fun f => contains f s) (windows k e).


(** A call to an internal tool of the orchestrator, with its answer. *)
Inductive tool_call : Type :=
| MetaCalled (tool : MetaPromptTool.t) (arguments : MetaPromptTool.args)
    (answer : exn + ToolExecResult)
| ChunkCalled (tool : TextChunkTool.t) (arguments : TextChunkTool.args)
    (answer : exn + ToolExecResult).

Definition tool_call_of (c : call orch_event) : tool_call :=
  match c with
  | Call e x =>
      match e in orch_event X return X -> tool_call with
      | MetaExecute tool arguments => fun x => MetaCalled tool arguments x
      | ChunkExecute tool arguments => fun x => ChunkCalled tool arguments x
      end x
  end.

(** The calls to the internal tools in a trace of the orchestrator. *)
Definition tool_calls (tr : list (call orch_event)) : list tool_call :=
  map tool_call_of tr.

Definition is_meta_call (c : tool_call) : bool :=
  match c with
  | MetaCalled _ _ _ => true
  | ChunkCalled _ _ _ => false
  end.

Definition is_chunk_call (c : tool_call) : bool :=
  match c with
  | MetaCalled _ _ _ => false
  | ChunkCalled _ _ _ => true
  end.

(** The number of calls of a trace that satisfy [p]. *)
Definition calls (p : tool_call -> bool) (tr : list (call orch_event)) : nat :=
  length (List.filter p (tool_calls tr)).

(** The arguments the orchestrator hands to the chunk-processing
    stage. *)
Definition chunk_args_of (file_path : str) (start_pos end_pos : Z)
  (query instruction chunk_id : str) : TextChunkTool.args :=
  {| TextChunkTool.file_path := Some file_path;
     TextChunkTool.start_pos := Some start_pos;
     TextChunkTool.end_pos := Some end_pos;
     TextChunkTool.query := Some query;
     TextChunkTool.enhanced_prompt := Some instruction;
     TextChunkTool.chunk_id := Some chunk_id |}.

(** The chunk count as the specification words it:
    [max(1, ceil((total_size - overlap) / (chunk_size - overlap)))],
    for [overlap < chunk_size]. *)
Definition spec_num_chunks (total_size chunk_size overlap : Z) : Z :=
  let step := chunk_size - overlap in
  Z.max 1 ((total_size - overlap + step - 1) / step).

(** Position [x] lies in one of the ranges [[start, end)]. *)
Definition covered (boundaries : list (Z * Z)) (x : Z) : bool :=
  existsb (fun b => (fst b <=? x) && (x <? snd b)) boundaries.

(** A character of plain text: in ASCII, and not a carriage return. *)
Definition is_plain (c : ascii) : bool :=
  (N_of_ascii c <? 128)%N && negb (ascii_eqb c CR).

(** The answer to a call of the model client. *)
Definition chat_answer_of (c : call llm_event) : chat_outcome :=
  match c with
  | Call e x =>
      match e in llm_event X return X -> chat_outcome with
      | Chat _ _ => fun x => x
      end x
  end.

(** The model answered with content that is not empty. *)
Definition has_content (a : chat_outcome) : bool :=
  match a with
  | Response (Some (_ :: _)) => true
  | _ => false
  end.

(** No asterisk occurs in [s]. *)
Definition no_star (s : str) : bool :=
  forallb (fun c => negb (ascii_eqb c "*"%char)) s.

(** [s] ends with an asterisk. *)
Definition ends_with_star (s : str) : bool :=
  match rev s with
  | c :: _ => ascii_eqb c "*"%char
  | [] => false
  end.

(** [s] holds no [**A], the first characters of the analysis marker, and
    does not end with an asterisk. *)
Definition marker_free (s : str) : bool :=
  negb (contains (lit "**A") s) && negb (ends_with_star s).

(** The test of the second [for] of [_extract_enhanced_prompt]: the line,
    stripped, is the separator. *)
Definition separator_line (line : str) : bool :=
  str_eqb (strip line) EnhancedChunkTool.SEPARATOR.

(** A model client that answers every call with [answer]. *)
Definition llm_always (answer : chat_outcome)
  : forall X, llm_event X -> unit -> X * unit :=
  fun X e s =>
    match e in llm_event X return X * unit with
    | Chat _ _ => (answer, s)
    end.

(** A model client that works through a script of answers, and gives no
    response once the script is used up. *)
Definition llm_script
  : forall X, llm_event X -> list chat_outcome -> X * list chat_outcome :=
  fun X e s =>
    match e in llm_event X return X * list chat_outcome with
    | Chat _ _ =>
        match s with
        | [] => (NoResponse, [])
        | a :: s' => (a, s')
        end
    end.

(** ** Sample data *)

Module Sample.

(** Messages of CPython 3.12 on Linux, where they do not depend on the
    data, on a host that serves offsets and sizes up to [10^9] and has no
    memory for what lies past them. *)
Definition runtime : Runtime := {|
  exn_str e :=
    match e with
    | FileNotFoundError p =>
        lit "[Errno 2] No such file or directory: '" ++ p ++ lit "'"
    | IsADirectoryError p =>
        lit "[Errno 21] Is a directory: '" ++ p ++ lit "'"
    | NotADirectoryError p =>
        lit "[Errno 20] Not a directory: '" ++ p ++ lit "'"
    | MemoryError => []
    | UnicodeDecodeError => lit "'utf-8' codec can't decode byte"
    | ZeroDivisionError => lit "integer division or modulo by zero"
    | AttributeError what =>
        lit "'NoneType' object has no attribute '" ++ what ++ lit "'"
    | Exception msg => msg
    end;
  gettempdir := lit "/tmp";
  io_limit := 10 ^ 9;
  io_limit_fits := ltac:(lia);
  far_read _ _ _ := inl MemoryError
|}.

#[local] Existing Instance runtime.

Definition empty_world : FS.world := {| FS.files := ∅; FS.dirs := {[ lit "/tmp" ]} |}.

(** A fresh agent. *)
Definition agent0 : state := LongContextAgent.init (lit "/tmp/long_context_k3xq") empty_world.

Definition context_tool : ContextFileManagerTool.t := ContextFileManagerTool.mk true.

Definition save (text : str) : ContextFileManagerTool.args :=
  {| ContextFileManagerTool.action := Some (lit "save_context");
     ContextFileManagerTool.context := Some text;
     ContextFileManagerTool.chunk_size := None;
     ContextFileManagerTool.overlap := None |}.

(** The state after the agent's context tool has saved [text]. *)
Definition saved (text : str) : state :=
  snd (ContextFileManagerTool.execute context_tool (save text) agent0).

Definition context_file : str := lit "/tmp/long_context_k3xq/context.txt".

(** The text of the statistics scenario. *)
Definition hello : str := lit "Hello world!
This is line 2.
Final line.".

Definition document : str :=
  lit "This is a test document with some sample text.
It contains multiple lines and paragraphs.
We can use this to test chunk processing functionality.".

(** An enhanced instruction of 208 characters. *)
Definition long_instruction : str :=
  concat (repeat (lit "Focus only on this chunk. ") 7)
  ++ lit "Focus only on this chunk.!".

(** Ten characters. *)
Definition digits : str := lit "0123456789".

Definition chunk_info (chunk_size overlap : Z) : ContextFileManagerTool.args :=
  {| ContextFileManagerTool.action := Some (lit "get_chunk_info");
     ContextFileManagerTool.context := None;
     ContextFileManagerTool.chunk_size := Some chunk_size;
     ContextFileManagerTool.overlap := Some overlap |}.

(** A text with one character outside ASCII: [café au lait]. *)
Definition cafe : str := lit "caf" ++ [ascii_of_nat 233] ++ lit " au lait".

Definition client : LLMClient := {| model_config := Some (lit "gpt-4") |}.

Definition chunk_tool : TextChunkTool.t := TextChunkTool.mk (Some client).

Definition chunk_args (path : str) (start_pos end_pos : Z) : TextChunkTool.args :=
  chunk_args_of path start_pos end_pos (lit "test query")
    (lit "List the drinks.") (lit "chunk_1").

Definition orchestrator : EnhancedChunkTool.t := EnhancedChunkTool.init (Some client).

Definition chunk_run (path : str) (start_pos end_pos : Z)
  : EnhancedChunkTool.args :=
  {| EnhancedChunkTool.file_path := Some path;
     EnhancedChunkTool.start_pos := Some start_pos;
     EnhancedChunkTool.end_pos := Some end_pos;
     EnhancedChunkTool.query := Some (lit "test query");
     EnhancedChunkTool.simple_prompt := Some (lit "short prompt");
     EnhancedChunkTool.task_context := None;
     EnhancedChunkTool.chunk_id := None |}.


Definition quoting_answer : str := lit "As asked (Focus only): a test document.".

(** A run in which the chunk model quotes the first words of its
    instruction. *)
Definition quoting_run :=
  run (EnhancedChunkTool.tools_handler llm_script (fs (saved document)))
      (EnhancedChunkTool.execute orchestrator (chunk_run context_file 0 50))
      [ Response (Some long_instruction); Response (Some quoting_answer) ].





(** A run in which the model client gives no enhanced prompt. *)
Definition failing_run :=
  run (EnhancedChunkTool.tools_handler (llm_always NoResponse)
         (fs (saved document)))
      (EnhancedChunkTool.execute orchestrator (chunk_run context_file 0 50)) tt.

(** The report of the chunk-processing stage in [quoting_run]. *)
Definition quoting_report : str :=
  TextChunkTool.format_result (lit "chunk_0_50") 0 50 (lit "test query")
    (take 50 document) quoting_answer.

(** The value [quoting_run] returns. *)
Definition quoting_output : str := default [] (output (fst (fst quoting_run))).


(** A run in which the model client gives the chunk-processing stage
    no response. *)
Definition broken_run :=
  run (EnhancedChunkTool.tools_handler llm_script (fs (saved document)))
      (EnhancedChunkTool.execute orchestrator (chunk_run context_file 0 50))
      [ Response (Some long_instruction); NoResponse ].

(** A run of the chunk tool on [café au lait]. *)
Definition cafe_run :=
  run (llm_always (Response (Some (lit "coffee"))))
      (TextChunkTool.execute chunk_tool (fs (saved cafe))
         (chunk_args context_file 5 7)) tt.

(** A run of the enhancement tool. *)
Definition meta_run :=
  run (llm_always (Response (Some long_instruction)))
      (MetaPromptTool.execute (MetaPromptTool.mk (Some client))
         {| MetaPromptTool.simple_prompt := Some (lit "short prompt");
            MetaPromptTool.task_context := None |}) tt.

(** An enhanced prompt that starts with a separator line. *)
Definition ruled_prompt : str := lit "---
Focus only on this chunk.".



End Sample.

(** * Properties *)

(** ** Strings *)

Section Strings.

Implicit Types (s t p : str) (c : ascii).

Lemma ascii_eqb_true a b : ascii_eqb a b = true <-> a = b.
Proof. apply Ascii.eqb_eq. Qed.

Lemma ascii_eqb_refl a : ascii_eqb a a = true.
Proof. apply Ascii.eqb_refl. Qed.

Lemma str_eqb_true s t : str_eqb s t = true <-> s = t.
Proof.
  revert t; induction s as [|a s IH]; intros [|b t]; simpl; try easy.
  rewrite andb_true_iff, ascii_eqb_true, IH.
  split; [intros [-> ->]; reflexivity | intros [= -> ->]; auto].
Qed.

Lemma str_eqb_refl s : str_eqb s s = true.
Proof. apply str_eqb_true; reflexivity. Qed.

Lemma startswith_true p s : startswith p s = true <-> exists b, s = p ++ b.
Proof.
  revert s; induction p as [|a p IH]; intros s; simpl.
  - split; [exists s; reflexivity | reflexivity].
  - destruct s as [|b s]; simpl.
    + split; [discriminate | intros [r Hr]; discriminate].
    + rewrite andb_true_iff, ascii_eqb_true, IH. split.
      * intros [-> [r ->]]. exists r; reflexivity.
      * intros [r [= -> ->]]. split; [reflexivity | exists r; reflexivity].
Qed.

Lemma startswith_app p s : startswith p (p ++ s) = true.
Proof. apply startswith_true; exists s; reflexivity. Qed.

Lemma contains_true p s :
  contains p s = true <-> exists a b, s = a ++ p ++ b.
Proof.
  induction s as [|x s IH].
  - simpl. rewrite orb_false_r, startswith_true. split.
    + intros [b Hb]. exists [], b. exact Hb.
    + intros [a [b Hab]]. destruct a; [exists b; exact Hab | discriminate].
  - cbn [contains]. rewrite orb_true_iff, startswith_true, IH. split.
    + intros [[b Hb] | [a [b Hab]]].
      * exists [], b. exact Hb.
      * exists (x :: a), b. rewrite Hab. reflexivity.
    + intros [[|y a] [b Hab]].
      * left. exists b. exact Hab.
      * right. injection Hab as -> ->. exists a, b. reflexivity.
Qed.

Lemma contains_false p s a b : contains p s = false -> s <> a ++ p ++ b.
Proof.
  intros Hc Heq. assert (contains p s = true) as Ht.
  { apply contains_true. exists a, b. exact Heq. }
  congruence.
Qed.

Lemma contains_refl p : contains p p = true.
Proof. apply contains_true. exists [], []. rewrite app_nil_r. reflexivity. Qed.

Lemma contains_trans p q s :
  contains p q = true -> contains q s = true -> contains p s = true.
Proof.
  rewrite !contains_true. intros [a [b ->]] [a' [b' ->]].
  exists (a' ++ a), (b ++ b'). rewrite <- !app_assoc. reflexivity.
Qed.


(** *** Splitting into lines and joining them *)

Lemma split_cons_form c s : exists l ls, split c s = l :: ls.
Proof.
  induction s as [|x s [l [ls IH]]]; simpl.
  - exists [], []. reflexivity.
  - destruct (ascii_eqb x c).
    + exists [], (split c s). reflexivity.
    + rewrite IH. exists (x :: l), ls. reflexivity.
Qed.

Lemma split_app c a b : split c (a ++ c :: b) = split c a ++ split c b.
Proof.
  induction a as [|x a IH]; simpl.
  - rewrite ascii_eqb_refl. reflexivity.
  - destruct (ascii_eqb x c); rewrite IH; [reflexivity|].
    destruct (split_cons_form c a) as [l [ls ->]]. reflexivity.
Qed.

Lemma split_one c s : contains [c] s = false -> split c s = [s].
Proof.
  induction s as [|x s IH]; [reflexivity|].
  cbn [contains startswith]. rewrite andb_true_r.
  intros Hc. apply orb_false_elim in Hc as [Hx Hs].
  unfold ascii_eqb in Hx. rewrite Ascii.eqb_sym in Hx.
  simpl. unfold ascii_eqb at 1. rewrite Hx, (IH Hs). reflexivity.
Qed.

Lemma join_split c s : join [c] (split c s) = s.
Proof.
  induction s as [|x s IH]; [reflexivity|].
  simpl. destruct (ascii_eqb x c) eqn:Hx.
  - apply ascii_eqb_true in Hx as ->.
    destruct (split_cons_form c s) as [l [ls Hl]].
    rewrite Hl in *. simpl. simpl in IH. rewrite IH. reflexivity.
  - destruct (split_cons_form c s) as [l [ls Hl]]. rewrite Hl in *.
    destruct ls; simpl in *; rewrite <- IH; reflexivity.
Qed.

Lemma join_cons sep l ls :
  ls <> [] -> join sep (l :: ls) = l ++ sep ++ join sep ls.
Proof. destruct ls; [congruence | reflexivity]. Qed.

Lemma join_app sep ls1 ls2 :
  ls1 <> [] -> ls2 <> [] ->
  join sep (ls1 ++ ls2) = join sep ls1 ++ sep ++ join sep ls2.
Proof.
  intros H1 H2. induction ls1 as [|l ls1 IH]; [congruence|].
  destruct ls1 as [|l' ls1].
  - simpl. destruct ls2; [congruence | reflexivity].
  - change ((l :: l' :: ls1) ++ ls2) with (l :: (l' :: ls1) ++ ls2).
    rewrite join_cons by (simpl; congruence).
    rewrite IH by congruence.
    rewrite (join_cons sep l (l' :: ls1)) by congruence.
    rewrite <- !app_assoc. reflexivity.
Qed.

Lemma join_app_glue sep ls1 ls2 :
  exists glue, join sep (ls1 ++ ls2) = join sep ls1 ++ glue ++ join sep ls2.
Proof.
  destruct ls1 as [|l1 ls1].
  - exists []. reflexivity.
  - destruct ls2 as [|l2 ls2].
    + exists []. rewrite !app_nil_r. reflexivity.
    + exists sep. apply join_app; congruence.
Qed.

(** The lines of a contiguous run of lines are a piece of the whole. *)
Lemma contains_join sep before mid after :
  contains (join sep mid) (join sep (before ++ mid ++ after)) = true.
Proof.
  apply contains_true.
  destruct (join_app_glue sep before (mid ++ after)) as [g1 ->].
  destruct (join_app_glue sep mid after) as [g2 ->].
  exists (join sep before ++ g1), (g2 ++ join sep after).
  rewrite <- !app_assoc. reflexivity.
Qed.

(** *** Stripping *)

Lemma lstrip_suffix s : exists a, s = a ++ lstrip s.
Proof.
  induction s as [|c s [a IH]]; simpl.
  - exists []. reflexivity.
  - destruct (isspace c).
    + exists (c :: a). simpl. congruence.
    + exists []. reflexivity.
Qed.

Lemma rstrip_prefix s : exists b, s = rstrip s ++ b.
Proof.
  unfold rstrip. destruct (lstrip_suffix (rev s)) as [a Ha].
  exists (rev a). rewrite <- rev_app_distr, <- Ha, rev_involutive. reflexivity.
Qed.

Lemma contains_strip s : contains (strip s) s = true.
Proof.
  apply contains_true. unfold strip.
  destruct (rstrip_prefix s) as [b Hb].
  destruct (lstrip_suffix (rstrip s)) as [a Ha].
  exists a, b. rewrite app_assoc, <- Ha. exact Hb.
Qed.

Lemma rstrip_space s c : isspace c = true -> rstrip (s ++ [c]) = rstrip s.
Proof.
  intros Hc. unfold rstrip. rewrite rev_app_distr. simpl. rewrite Hc. reflexivity.
Qed.

Lemma strip_space s c : isspace c = true -> strip (s ++ [c]) = strip s.
Proof. intros Hc. unfold strip. rewrite rstrip_space by exact Hc. reflexivity. Qed.

(** *** Loops *)

Lemma take_until_prefix {A} (p : A -> bool) l :
  exists rest, l = take_until p l ++ rest.
Proof.
  induction l as [|x l [rest IH]]; simpl.
  - exists []. reflexivity.
  - destruct (p x).
    + exists (x :: l). reflexivity.
    + exists rest. simpl. congruence.
Qed.

Lemma take_until_app {A} (p : A -> bool) l x rest :
  forallb (fun y => negb (p y)) l = true -> p x = true ->
  take_until p (l ++ x :: rest) = l.
Proof.
  intros Hl Hx. induction l as [|y l IH]; simpl.
  - rewrite Hx. reflexivity.
  - simpl in Hl. apply andb_prop in Hl as [Hy Hl].
    apply negb_true_iff in Hy. rewrite Hy, (IH Hl). reflexivity.
Qed.

End Strings.

(** ** Pieces of strings *)

Section Pieces.

Implicit Types (e s p x y : str).







Lemma shares_fragment_mono k e a b :
  contains a b = true -> shares_fragment k e b = false ->
  shares_fragment k e a = false.
Proof.
  intros Hab Hb. destruct (shares_fragment k e a) eqn:Ha; [|reflexivity].
  apply existsb_exists in Ha as [f [Hf Hfa]].
  assert (shares_fragment k e b = true); [|congruence].
  apply existsb_exists. exists f. split; [exact Hf|].
  eapply contains_trans; eassumption.
Qed.

(** *** The length of rendered numbers *)





End Pieces.

(** ** Extraction and sanitization *)

Section Extraction.

Import EnhancedChunkTool.

Lemma split_sep_cons c (s : str) : split c (c :: s) = [] :: split c s.
Proof. simpl. rewrite ascii_eqb_refl. reflexivity. Qed.

(** The success report of the enhancement stage, line by line. *)
Lemma format_result_lines simple_prompt enhanced :
  exists summary,
    split NL (MetaPromptTool.format_result simple_prompt enhanced)
    = [SUCCESS_MARKER; []] ++ split NL enhanced ++ [[]; SEPARATOR] ++ summary.
Proof.
  unfold MetaPromptTool.format_result.
  match goal with
  | |- context [ enhanced ++ ?tail ] =>
      match tail with
      | lit ?a ++ ?rest =>
          exists (split NL (lit "Optimization Summary:
- Original prompt length: " ++ rest));
          change (lit a ++ rest)
            with (NL :: NL :: SEPARATOR ++ NL
                  :: (lit "Optimization Summary:
- Original prompt length: " ++ rest))
      end
  end.
  change (lit "Enhanced Prompt Generated Successfully:

" ++ ?x) with (SUCCESS_MARKER ++ NL :: NL :: x).
  rewrite split_app, split_sep_cons, split_app, split_sep_cons, split_app.
  reflexivity.
Qed.

Lemma separator_is_separator : str_eqb (strip SEPARATOR) SEPARATOR = true.
Proof. reflexivity. Qed.

Lemma blank_is_no_separator : str_eqb (strip []) SEPARATOR = false.
Proof. reflexivity. Qed.

Lemma marker_found rest :
  find_index (contains SUCCESS_MARKER) (SUCCESS_MARKER :: rest) = Some O.
Proof. cbn [find_index]. rewrite contains_refl. reflexivity. Qed.

(** C10. Formatting then extracting: when no line of the enhanced prompt
    [E], stripped, is the separator [---], extracting from the success
    report that [MetaPromptTool] builds around [E] gives [E] stripped. *)
Theorem extract_format_roundtrip (simple_prompt E : str) :
  forallb (fun line => negb (str_eqb (strip line) SEPARATOR)) (split NL E) = true ->
  _extract_enhanced_prompt (MetaPromptTool.format_result simple_prompt E)
  = strip E.
Proof.
  intros Hlines. unfold _extract_enhanced_prompt.
  destruct (format_result_lines simple_prompt E) as [summary ->].
  unfold prompt_start_idx.
  change ([SUCCESS_MARKER; []] ++ ?x) with (SUCCESS_MARKER :: [] :: x).
  rewrite marker_found. cbn [drop Nat.add].
  change (split NL E ++ [[]; SEPARATOR] ++ summary)
    with (split NL E ++ [[]] ++ SEPARATOR :: summary).
  rewrite (app_assoc (split NL E) [[]] (SEPARATOR :: summary)), drop_0.
  rewrite take_until_app.
  - destruct (split_cons_form NL E) as [l [ls Hl]].
    rewrite join_app by (rewrite ?Hl; congruence).
    rewrite join_split. cbn [join]. rewrite app_nil_r.
    apply strip_space. reflexivity.
  - rewrite forallb_app, Hlines. reflexivity.
  - apply separator_is_separator.
Qed.

Lemma first_content_total lines js :
  Forall (fun j => (j < length lines)%nat) js ->
  exists found, first_content lines js = Some found.
Proof.
  induction 1 as [|j js Hj _ IH]; simpl.
  - exists None. reflexivity.
  - destruct (lookup_lt_is_Some_2 lines j Hj) as [line ->].
    destruct (negb _ && _); [exists (Some j); reflexivity | exact IH].
Qed.

Lemma seq_below i n :
  Forall (fun j => (j < n)%nat) (seq i (n - i)).
Proof.
  apply Forall_forall. intros j Hj. apply elem_of_seq in Hj. lia.
Qed.

(** The search for the start of the analysis never reads past the last
    line. *)
Lemma result_start_idx_total lines :
  exists start, result_start_idx lines = Some start.
Proof.
  unfold result_start_idx.
  destruct (find_index (contains (lit "**Analysis Result:**")) lines).
  - eexists. reflexivity.
  - destruct (find_index (contains (lit "**Chunk Processing Result**")) lines).
    + destruct (first_content_total lines _ (seq_below n (length lines)))
        as [found ->]. eexists. reflexivity.
    + eexists. reflexivity.
Qed.

(** Sanitization always builds a clean report around the analysis. *)
Lemma extraction_and_sanitization_lemma
  (text chunk_id : str) (start_pos end_pos : Z) :
  exists start,
    _clean_chunk_output text chunk_id start_pos end_pos
    = clean_result chunk_id start_pos end_pos
        (analysis_content (split NL text) start).
Proof.
  destruct (result_start_idx_total (split NL text)) as [start Hstart].
  exists start. unfold _clean_chunk_output, _clean_chunk_output_try.
  rewrite Hstart. reflexivity.
Qed.

(** C4. Extraction and sanitization are total.  For every string the
    [try] block of [_clean_chunk_output] completes, so a clean report is
    built; without any structure the extraction returns the whole text
    stripped, and without a marker the sanitization starts after
    [min(5, len(lines))] lines.  The empty string, a lone separator and a
    text without markers are extracted to themselves. *)
Theorem extraction_and_sanitization_total
  (text chunk_id : str) (start_pos end_pos : Z) :
  (exists start,
     result_start_idx (split NL text) = Some start /\
     _clean_chunk_output text chunk_id start_pos end_pos
     = clean_result chunk_id start_pos end_pos
         (analysis_content (split NL text) start)) /\
  (prompt_start_idx (split NL text) = None ->
   _extract_enhanced_prompt text = strip text) /\
  (find_index (contains (lit "**Analysis Result:**")) (split NL text) = None ->
   find_index (contains (lit "**Chunk Processing Result**")) (split NL text) = None ->
   _clean_chunk_output text chunk_id start_pos end_pos
   = clean_result chunk_id start_pos end_pos
       (analysis_content (split NL text)
          (Nat.min 5 (length (split NL text))))) /\
  _extract_enhanced_prompt [] = [] /\
  _extract_enhanced_prompt (lit "---") = lit "---" /\
  _extract_enhanced_prompt (lit "no markers here") = lit "no markers here".
Proof.
  split; [|split; [|split]].
  - destruct (result_start_idx_total (split NL text)) as [start Hstart].
    exists start. split; [exact Hstart|].
    unfold _clean_chunk_output, _clean_chunk_output_try.
    rewrite Hstart. reflexivity.
  - intros Hnone. unfold _extract_enhanced_prompt. rewrite Hnone. reflexivity.
  - intros Ha Hc.
    unfold _clean_chunk_output, _clean_chunk_output_try, result_start_idx.
    rewrite Ha, Hc. reflexivity.
  - repeat split; reflexivity.
Qed.

End Extraction.

(** ** The orchestrator *)

Section Orchestrator.

Import EnhancedChunkTool.
Context `{Runtime}.

(** The control flow of [execute]: it stops at a validation error
    without calling anything, or it calls the enhancement stage and goes
    on as listed. *)
Lemma execute_cases (self : t) (arguments : args) :
  (exists msg, execute self arguments = Ret (error_result msg 1) /\
     (llm_client self = None ->
      msg = lit "LLM client not available for enhanced_chunk_tool"))
  \/
  (exists client meta chunk file_path start_pos end_pos query simple_prompt k,
     llm_client self = Some client /\
     let chunk_id :=
       default (TextChunkTool.default_chunk_id (Some start_pos) (Some end_pos))
               (chunk_id arguments) in
     execute self arguments
     = Vis (MetaExecute meta
              {| MetaPromptTool.simple_prompt := Some simple_prompt;
                 MetaPromptTool.task_context :=
                   Some (default [] (task_context arguments)) |}) k /\
     (forall e,
        k (inl e)
        = Ret (error_result
                 (lit "Enhanced chunk processing failed: " ++ exn_str e) 1)) /\
     (forall r err, error r = Some err ->
        k (inr r)
        = Ret (error_result
                 (lit "Internal prompt enhancement failed: " ++ err) 1)) /\
     (forall r, error r = None -> output r = None ->
        exists msg, k (inr r) = Ret (error_result msg 1)) /\
     (forall r meta_output, error r = None -> output r = Some meta_output ->
        exists k2,
          k (inr r)
          = Vis (ChunkExecute chunk
                   (chunk_args_of file_path start_pos end_pos query
                      (_extract_enhanced_prompt meta_output) chunk_id)) k2 /\
          (forall e, exists msg, k2 (inl e) = Ret (error_result msg 1)) /\
          (forall c err, error c = Some err ->
             k2 (inr c)
             = Ret (error_result
                      (lit "Internal chunk processing failed: " ++ err)
                      (error_code c))) /\
          (forall c, error c = None ->
             k2 (inr c)
             = Ret {| output :=
                        option_map
                          (fun chunk_output =>
                             _clean_chunk_output chunk_output chunk_id
                               start_pos end_pos)
                          (output c);
                      error := None;
                      error_code := 0 |}))).
Proof.
  unfold execute.
  destruct (llm_client self) as [client|];
    [|left; eexists; split; [reflexivity | reflexivity]].
  destruct (meta_tool self) as [meta|], (chunk_tool self) as [chunk|];
    try (left; eexists; split; [reflexivity | discriminate]).
  destruct (file_path arguments) as [[|c0 fp]|],
           (start_pos arguments) as [sp|], (end_pos arguments) as [ep|],
           (query arguments) as [[|c1 q]|],
           (simple_prompt arguments) as [[|c2 p]|];
    try (left; eexists; split; [reflexivity | discriminate]).
  right. cbn [truthy is_int andb negb].
  exists client, meta, chunk, (c0 :: fp), sp, ep, (c1 :: q), (c2 :: p).
  eexists. split; [reflexivity|]. cbv zeta. split; [reflexivity|].
  split; [reflexivity|]. split.
  { intros r err ->. reflexivity. }
  split.
  { intros r -> ->. eexists. reflexivity. }
  intros r meta_output -> ->. eexists. split; [reflexivity|].
  split; [intros e; eexists; reflexivity|]. split.
  - intros c err ->. reflexivity.
  - intros c ->. reflexivity.
Qed.


Lemma run_ret {E A S} (h : forall X, E X -> S -> X * S) (a : A) (s : S) :
  run h (Ret a) s = (a, s, []).
Proof. reflexivity. Qed.

Lemma run_vis {E A S X} (h : forall X, E X -> S -> X * S)
  (e : E X) (k : X -> prog E A) (s : S) :
  run h (Vis e k) s
  = (let '(a, s2, tr) := run h (k (fst (h _ e s))) (snd (h _ e s)) in
     (a, s2, Call e (fst (h _ e s)) :: tr)).
Proof. simpl. destruct (h X e s). reflexivity. Qed.

(** C9. Without a model client the orchestrator answers with the
    client-unavailable error, whatever its arguments, and calls nothing:
    the enhancement stage is not attempted. *)
Theorem no_client_no_enhancement {S} (h : forall X, orch_event X -> S -> X * S)
  (s : S) (self : t) (arguments : args) :
  llm_client self = None ->
  run h (execute self arguments) s
  = (error_result (lit "LLM client not available for enhanced_chunk_tool") 1,
     s, [])
  /\ calls is_meta_call (snd (run h (execute self arguments) s)) = 0%nat.
Proof.
  intros Hnone.
  assert (execute self arguments
          = Ret (error_result
                   (lit "LLM client not available for enhanced_chunk_tool") 1))
    as ->.
  { unfold execute. rewrite Hnone. reflexivity. }
  split; reflexivity.
Qed.

(** C5. When the enhancement stage returns an error, the
    chunk-processing stage is not called, and the orchestrator fails with
    a message that carries the error of the enhancement stage. *)
Theorem enhancement_failure_stops {S} (h : forall X, orch_event X -> S -> X * S)
  (s s' : S) (self : t) (arguments : args) (r : ToolExecResult)
  (tr : list (call orch_event))
  (tool : MetaPromptTool.t) (meta_args : MetaPromptTool.args)
  (meta_result : ToolExecResult) (err : str) :
  run h (execute self arguments) s = (r, s', tr) ->
  In (MetaCalled tool meta_args (inr meta_result)) (tool_calls tr) ->
  error meta_result = Some err ->
  calls is_chunk_call tr = 0%nat /\
  r = error_result (lit "Internal prompt enhancement failed: " ++ err) 1.
Proof.
  intros Hrun Hin Herr.
  destruct (execute_cases self arguments)
    as [[msg [Hexec _]]
       | (client & meta & chunk & fp & sp & ep & q & p & k & _ & Hexec
          & Hraise & Hfail & Hnone & Hok)].
  { rewrite Hexec, run_ret in Hrun. injection Hrun as <- <- <-. destruct Hin. }
  cbv zeta in Hexec. rewrite Hexec, run_vis in Hrun.
  destruct (h _ _ s) as [[e|mr] s1]; cbn [fst snd] in Hrun.
  - rewrite Hraise, run_ret in Hrun. injection Hrun as <- <- <-.
    destruct Hin as [Hin | []]. discriminate Hin.
  - destruct (error mr) as [err'|] eqn:Hmr.
    + rewrite (Hfail _ _ Hmr), run_ret in Hrun. injection Hrun as <- <- <-.
      destruct Hin as [Hin | []]. injection Hin as <- <- <-.
      split; [reflexivity|].
      rewrite Herr in Hmr. injection Hmr as ->. reflexivity.
    + exfalso. destruct (output mr) as [mo|] eqn:Hout.
      * destruct (Hok _ _ Hmr Hout) as (k2 & Hk & Hraise2 & Hfail2 & Hok2).
        rewrite Hk, run_vis in Hrun.
        destruct (run h (k2 _) _) as [[r2 s2] tr2] eqn:Hrun2.
        injection Hrun as <- <- <-.
        destruct (h _ _ s1) as [[e|c] s2']; cbn [fst snd] in Hrun2.
        -- destruct (Hraise2 e) as [msg Hmsg].
           rewrite Hmsg, run_ret in Hrun2. injection Hrun2 as <- <- <-.
           destruct Hin as [Hin | [Hin | []]]; [|discriminate Hin].
           injection Hin as <- <- <-. congruence.
        -- destruct (error c) as [cerr|] eqn:Hc.
           ++ rewrite (Hfail2 _ _ Hc), run_ret in Hrun2.
              injection Hrun2 as <- <- <-.
              destruct Hin as [Hin | [Hin | []]]; [|discriminate Hin].
              injection Hin as <- <- <-. congruence.
           ++ rewrite (Hok2 _ Hc), run_ret in Hrun2.
              injection Hrun2 as <- <- <-.
              destruct Hin as [Hin | [Hin | []]]; [|discriminate Hin].
              injection Hin as <- <- <-. congruence.
      * destruct (Hnone _ Hmr Hout) as [msg Hmsg].
        rewrite Hmsg, run_ret in Hrun. injection Hrun as <- <- <-.
        destruct Hin as [Hin | []]. injection Hin as <- <- <-. congruence.
Qed.

(** The analysis kept by the sanitization is a piece of the report it
    was given. *)
Lemma analysis_in_report (report : str) (start : nat) :
  contains (analysis_content (split NL report) start) report = true.
Proof.
  unfold analysis_content.
  eapply contains_trans; [apply contains_strip|].
  set (lines := split NL report).
  destruct (take_until_prefix stop_line (drop start lines)) as [rest Hrest].
  rewrite <- (join_split NL report). fold lines.
  rewrite <- (take_drop start lines) at 2. rewrite Hrest at 2.
  apply contains_join.
Qed.





End Orchestrator.

(** ** The context store *)

Section ContextStore.

Import ContextFileManagerTool.
Context `{Runtime}.

(** C7, as it holds.  Where the context file can be written, saving a
    text reports its length as the character count, the number of its
    line feeds plus one as the line count and the number of its
    whitespace-delimited words as the word count, and stores the text; for
    the text of the scenario these are 40 characters, 3 lines and
    8 words. *)
Theorem save_reports_statistics (self : t) (arguments : args) (s : state)
  (text : str) :
  context arguments = Some text -> text <> [] ->
  let dir := if has_agent self then temp_dir (agent s) else gettempdir in
  let file := FS.path_join dir (lit "context.txt") in
  dir ∈ FS.dirs (fs s) -> file ∉ FS.dirs (fs s) ->
  exists s',
    _save_context self arguments s
    = inr (ok_result
             (save_report file (len text) (count NL text + 1)
                (Z.of_nat (length (split_ws text)))), s') /\
    FS.files (fs s') !! file = Some (FS.utf8_encode text) /\
    (text = Sample.hello ->
     _save_context self arguments s
     = inr (ok_result (save_report file 40 3 8), s')).
Proof.
  intros Hctx Hne dir file Hdir Hfile.
  unfold _save_context. rewrite Hctx.
  destruct text as [|c text]; [congruence|].
  fold dir. fold file. unfold FS.write_text.
  rewrite (bool_decide_eq_false_2 _ Hfile), (bool_decide_eq_true_2 _ Hdir).
  unfold statistics. eexists. split; [reflexivity|]. split.
  - cbn [fs FS.files]. apply lookup_insert_eq.
  - intros ->. reflexivity.
Qed.

End ContextStore.

Section Boundaries.

Import ContextFileManagerTool.

(** The count of the code rounds down where the count of the
    specification rounds up. *)
Lemma num_chunks_le_spec total_size chunk_size overlap :
  0 <= overlap < chunk_size ->
  num_chunks total_size chunk_size overlap
  <= spec_num_chunks total_size chunk_size overlap.
Proof.
  intros Ho. unfold num_chunks, spec_num_chunks.
  apply Z.max_le_compat_l. apply Z.div_le_mono; lia.
Qed.

Lemma floor_ceil_agree a step :
  0 < step ->
  Z.max 1 (a / step) = Z.max 1 ((a + step - 1) / step)
  <-> a <= step \/ a mod step = 0.
Proof.
  intros Hs.
  pose proof (Z.div_mod a step ltac:(lia)) as Ha.
  pose proof (Z.mod_pos_bound a step Hs) as Hm.
  pose proof (Z.div_mod (a + step - 1) step ltac:(lia)) as Hb.
  pose proof (Z.mod_pos_bound (a + step - 1) step Hs) as Hn.
  set (q := a / step) in *. set (r := a mod step) in *.
  set (q' := (a + step - 1) / step) in *.
  set (r' := (a + step - 1) mod step) in *.
  assert (q' = q \/ q' = q + 1) as Hq by nia.
  split.
  - intros Heq. destruct (Z.le_gt_cases a step) as [|Hgt]; [left; assumption|right].
    assert (1 <= q) by nia. assert (q' = q) by lia. nia.
  - intros [Hle | Hr].
    + assert (q <= 1) by nia. assert (q' <= 1) by nia. lia.
    + assert (q' = q) by nia. lia.
Qed.

(** The two counts agree exactly when one chunk is enough or the step
    divides what lies beyond the overlap. *)
Lemma num_chunks_agrees_iff total_size chunk_size overlap :
  0 <= overlap < chunk_size ->
  num_chunks total_size chunk_size overlap
  = spec_num_chunks total_size chunk_size overlap
  <-> total_size <= chunk_size
      \/ (total_size - overlap) mod (chunk_size - overlap) = 0.
Proof.
  intros Ho. unfold num_chunks, spec_num_chunks.
  rewrite floor_ceil_agree by lia. split; intros [?|?]; auto; left; lia.
Qed.

Lemma covered_cons b l x :
  covered (b :: l) x = ((fst b <=? x) && (x <? snd b)) || covered l x.
Proof. reflexivity. Qed.

(** The ranges listed by the loop over [i, i + k) run on without a gap. *)
Lemma covered_loop total_size chunk_size overlap k i x :
  0 <= overlap < chunk_size ->
  covered (map (fun b => (snd (fst b), snd b))
             (boundaries_loop total_size chunk_size overlap
                (map Z.of_nat (seq i k)))) x = true
  <-> (0 < k)%nat /\
      Z.of_nat i * (chunk_size - overlap) <= x
      < Z.min total_size
          ((Z.of_nat i + Z.of_nat k - 1) * (chunk_size - overlap) + chunk_size).
Proof.
  intros Ho. revert i. induction k as [|k IH]; intros i.
  - simpl. split; [discriminate | lia].
  - cbn [seq map boundaries_loop]. rewrite covered_cons. cbn [fst snd].
    set (start := Z.of_nat i * (chunk_size - overlap)).
    rewrite orb_true_iff, andb_true_iff, Z.leb_le, Z.ltb_lt.
    destruct (Z.geb_spec (Z.min (start + chunk_size) total_size) total_size)
      as [Hge|Hlt].
    + cbn [map covered existsb].
      split; [intros [[? ?]|?]|intros [_ ?]]; try discriminate; [|left]; nia.
    + rewrite (IH (S i)).
      destruct k as [|k].
      * split; [intros [[? ?] | [? _]] | intros [_ ?]]; [| lia |left]; nia.
      * split.
        -- intros [[? ?] | [_ ?]]; (split; [lia|]); nia.
        -- intros [_ ?]. destruct (Z.lt_ge_cases x (start + chunk_size)).
           ++ left. nia.
           ++ right. split; [lia|]. nia.
Qed.

(** What the listed ranges cover: the positions from 0 up to the end of
    chunk number [num_chunks], or to the end of the text if that comes
    first. *)
Lemma covered_boundaries total_size chunk_size overlap x :
  0 <= overlap < chunk_size ->
  covered (chunk_boundaries total_size chunk_size overlap) x = true
  <-> 0 <= x
      < Z.min total_size
          ((num_chunks total_size chunk_size overlap - 1)
           * (chunk_size - overlap) + chunk_size).
Proof.
  intros Ho. unfold chunk_boundaries, range.
  rewrite covered_loop by exact Ho.
  assert (1 <= num_chunks total_size chunk_size overlap) as Hn
    by (unfold num_chunks; lia).
  rewrite Z2Nat.id by lia. change (Z.of_nat 0) with 0.
  split; [intros [_ ?] | intros ?; split]; lia.
Qed.

(** The listed ranges cover the whole text exactly when one chunk is
    enough or the step divides what lies beyond the overlap. *)
Lemma boundaries_cover_iff total_size chunk_size overlap :
  0 <= overlap < chunk_size -> 0 < total_size ->
  (forall x, 0 <= x < total_size ->
             covered (chunk_boundaries total_size chunk_size overlap) x = true)
  <-> total_size <= chunk_size
      \/ (total_size - overlap) mod (chunk_size - overlap) = 0.
Proof.
  intros Ho Ht.
  set (step := chunk_size - overlap). set (a := total_size - overlap).
  assert (0 < step) as Hs by (unfold step; lia).
  pose proof (Z.div_mod a step ltac:(lia)) as Ha.
  pose proof (Z.mod_pos_bound a step Hs) as Hm.
  assert (total_size
          <= (num_chunks total_size chunk_size overlap - 1) * step + chunk_size
          <-> total_size <= chunk_size \/ a mod step = 0) as Hreach.
  { unfold num_chunks. fold step. fold a.
    destruct (Z.le_gt_cases a step) as [Hle|Hgt].
    - assert (a / step <= 1) by nia. split; [left; lia | intros _; nia].
    - assert (1 <= a / step) by nia.
      rewrite Z.max_r by lia. split; [intros ?; right | intros [?|?]]; nia. }
  rewrite <- Hreach. split.
  - intros Hall. specialize (Hall (total_size - 1) ltac:(lia)).
    apply covered_boundaries in Hall; [|exact Ho]. fold step in Hall. lia.
  - intros Hle x Hx. apply covered_boundaries; [exact Ho|]. fold step. lia.
Qed.

(** C2, at an input where the code departs from it: for a context of
    10 characters, chunks of 4 and no overlap, [num_chunks] is 2 and the
    report says so, where the stated count is 3. *)
Theorem chunk_count_rounds_down :
  num_chunks 10 4 0 = 2 /\
  spec_num_chunks 10 4 0 = 3 /\
  output (fst (execute (H := Sample.runtime) Sample.context_tool
                 (Sample.chunk_info 4 0) (Sample.saved Sample.digits)))
  = Some (lit "Chunk Analysis:
Context file: /tmp/long_context_k3xq/context.txt
Total size: 10 characters
Chunk size: 4 characters
Overlap: 0 characters  " ++ [NL] ++ lit "Estimated chunks: 2

Chunk boundaries (start:end):
Chunk 1: 0:4
Chunk 2: 4:8").
Proof. repeat split; vm_compute; reflexivity. Qed.

(** C3, at an input where the code departs from it: for a context of
    10 characters, chunks of 4 and no overlap, the boundaries listed are
    [0:4] and [4:8]; the last one ends at 8, not at 10, and the positions 8
    and 9 are in no range.  For 145 characters, chunks of 50 and an overlap
    of 10 the list ends at 130. *)
Theorem chunk_boundaries_stop_short :
  chunk_boundaries 10 4 0 = [(0, 4); (4, 8)] /\
  covered (chunk_boundaries 10 4 0) 8 = false /\
  covered (chunk_boundaries 10 4 0) 9 = false /\
  List.last (map snd (chunk_boundaries 10 4 0)) 0 = 8 /\
  chunk_boundaries 145 50 10 = [(0, 50); (40, 90); (80, 130)].
Proof. repeat split; vm_compute; reflexivity. Qed.

End Boundaries.

(** ** Reading a chunk *)

Section ReadingChunks.

Context `{Runtime}.

Lemma utf8_encode_plain (s : str) :
  forallb is_plain s = true -> FS.utf8_encode s = map N_of_ascii s.
Proof.
  induction s as [|c s IH]; [reflexivity|].
  simpl. intros Hs. apply andb_prop in Hs as [Hc Hs].
  unfold is_plain in Hc. apply andb_prop in Hc as [Hc _].
  unfold FS.utf8_encode in *. simpl. unfold FS.utf8_encode_char at 1.
  rewrite Hc, (IH Hs). reflexivity.
Qed.

Lemma utf8_decode_plain (s : str) :
  forallb is_plain s = true -> FS.utf8_decode (map N_of_ascii s) = Some s.
Proof.
  induction s as [|c s IH]; [reflexivity|].
  simpl. intros Hs. apply andb_prop in Hs as [Hc Hs].
  unfold is_plain in Hc. apply andb_prop in Hc as [Hc _].
  rewrite Hc, (IH Hs), ascii_N_embedding. reflexivity.
Qed.

Lemma universal_newlines_plain (s : str) :
  forallb is_plain s = true -> FS.universal_newlines s = s.
Proof.
  induction s as [|c s IH]; [reflexivity|].
  simpl. intros Hs. apply andb_prop in Hs as [Hc Hs].
  unfold is_plain in Hc. apply andb_prop in Hc as [_ Hc].
  apply negb_true_iff in Hc. rewrite Hc, (IH Hs). reflexivity.
Qed.

Lemma forallb_drop {A} (p : A -> bool) n (l : list A) :
  forallb p l = true -> forallb p (drop n l) = true.
Proof.
  revert n. induction l as [|x l IH]; intros [|n] Hl; simpl; auto.
  simpl in Hl. apply andb_prop in Hl as [_ Hl]. auto.
Qed.

(** In a file that holds plain text, [seek] and [read] give the slice
    of the text, within the reach of the host. *)
Lemma read_at_plain (w : FS.world) (path text : str) (start_pos end_pos : Z) :
  FS.files w !! path = Some (FS.utf8_encode text) ->
  forallb is_plain text = true ->
  start_pos <= io_limit -> end_pos - start_pos <= io_limit ->
  FS.read_at w path start_pos (end_pos - start_pos)
  = inr (slice text start_pos end_pos).
Proof.
  intros Hfile Hplain Hstart Hsize. unfold FS.read_at. rewrite Hfile.
  assert ((start_pos <=? io_limit) && (end_pos - start_pos <=? io_limit) = true)
    as ->.
  { apply andb_true_intro. split; apply Z.leb_le; assumption. }
  rewrite utf8_encode_plain by exact Hplain.
  rewrite skipn_map.
  rewrite utf8_decode_plain by (apply forallb_drop; exact Hplain).
  rewrite universal_newlines_plain by (apply forallb_drop; exact Hplain).
  reflexivity.
Qed.

(** For plain text the claim of C6 holds: the chunk submitted to the
    model and the size reported are the slice [text[start:end]] and its
    length. *)
Lemma plain_chunk_is_slice (client : LLMClient) (w : FS.world)
  (path text query instruction chunk_id : str) (start_pos end_pos : Z) :
  FS.files w !! path = Some (FS.utf8_encode text) ->
  forallb is_plain text = true ->
  path <> [] -> query <> [] -> instruction <> [] ->
  0 <= start_pos < end_pos -> end_pos <= io_limit ->
  strip (slice text start_pos end_pos) <> [] ->
  exists k,
    TextChunkTool.execute (TextChunkTool.mk (Some client)) w
      (chunk_args_of path start_pos end_pos query instruction chunk_id)
    = Vis (Chat
             [ {| role := lit "system";
                  content := TextChunkTool.system_prompt |};
               {| role := lit "user";
                  content :=
                    TextChunkTool.user_message instruction query chunk_id
                      start_pos end_pos (slice text start_pos end_pos) |} ]
             (TextChunkTool.request_config client)) k /\
    forall c content,
      k (Response (Some (c :: content)))
      = Ret (ok_result
               (TextChunkTool.format_result chunk_id start_pos end_pos query
                  (slice text start_pos end_pos) (c :: content))).
Proof.
  intros Hfile Hplain Hp Hq Hi Hpos Hlimit Hblank.
  unfold TextChunkTool.execute, chunk_args_of.
  cbn [TextChunkTool.file_path TextChunkTool.start_pos TextChunkTool.end_pos
       TextChunkTool.query TextChunkTool.enhanced_prompt
       TextChunkTool.chunk_id TextChunkTool.llm_client default].
  destruct path as [|p0 path]; [congruence|].
  destruct query as [|q0 query]; [congruence|].
  destruct instruction as [|i0 instruction]; [congruence|].
  cbn [truthy is_int andb negb].
  assert ((start_pos <? 0) || (end_pos <=? start_pos) = false) as ->.
  { apply orb_false_intro; [apply Z.ltb_ge | apply Z.leb_gt]; lia. }
  assert (FS.exists_ w (p0 :: path) = true) as ->.
  { unfold FS.exists_. rewrite Hfile. reflexivity. }
  cbn [negb]. rewrite (read_at_plain w _ text) by (assumption || lia).
  destruct (strip (slice text start_pos end_pos)) eqn:Hs; [congruence|].
  eexists. split; [reflexivity|]. reflexivity.
Qed.

End ReadingChunks.

(** C6, at an input where the code departs from it.  The context
    [café au lait] is saved and the range [5:7] is processed.  The slice
    of the text is [au]; [seek(5)] takes 5 as a byte offset, the accented
    letter fills two bytes, and the chunk read, submitted to the model and
    reported with its size is [ a]. *)
Theorem chunk_read_misses_slice :
  slice Sample.cafe 5 7 = lit "au" /\
  FS.read_at (H := Sample.runtime) (fs (Sample.saved Sample.cafe))
    Sample.context_file 5 (7 - 5) = inr (lit " a") /\
  run (llm_always (Response (Some (lit "coffee"))))
    (TextChunkTool.execute (H := Sample.runtime) Sample.chunk_tool
       (fs (Sample.saved Sample.cafe))
       (Sample.chunk_args Sample.context_file 5 7)) tt
  = (ok_result
       (TextChunkTool.format_result (lit "chunk_1") 5 7 (lit "test query")
          (lit " a") (lit "coffee")),
     tt,
     [ Call (Chat
               [ {| role := lit "system";
                    content := TextChunkTool.system_prompt |};
                 {| role := lit "user";
                    content :=
                      TextChunkTool.user_message (lit "List the drinks.")
                        (lit "test query") (lit "chunk_1") 5 7 (lit " a") |} ]
               (TextChunkTool.request_config Sample.client))
            (Response (Some (lit "coffee"))) ]).
Proof. repeat split; vm_compute; reflexivity. Qed.

(** ** The workspace of the agent *)

Section Workspace.

Import LongContextAgent.








Context `{Collaborators}.



End Workspace.

(** ** The statements at sample data *)



(** C5 at [Sample.failing_run], where the model client gives the
    enhancement stage no response. *)
Lemma enhancement_failure_stops_witness :
  calls is_chunk_call (snd Sample.failing_run) = 0%nat /\
  fst (fst Sample.failing_run)
  = error_result
      (lit "Internal prompt enhancement failed: Failed to generate enhanced prompt") 1.
Proof.
  apply (enhancement_failure_stops (H := Sample.runtime)
           (EnhancedChunkTool.tools_handler (H := Sample.runtime)
              (llm_always NoResponse) (fs (Sample.saved Sample.document)))
           tt (snd (fst Sample.failing_run))
           Sample.orchestrator (Sample.chunk_run Sample.context_file 0 50)
           (fst (fst Sample.failing_run)) (snd Sample.failing_run)
           (MetaPromptTool.mk (Some Sample.client))
           {| MetaPromptTool.simple_prompt := Some (lit "short prompt");
              MetaPromptTool.task_context := Some [] |}
           (error_result (lit "Failed to generate enhanced prompt") 1)
           (lit "Failed to generate enhanced prompt")).
  - vm_compute. reflexivity.
  - left. vm_compute. reflexivity.
  - reflexivity.
Defined.

(** C9 at an orchestrator built without a model client. *)
Lemma no_client_no_enhancement_witness :
  run (EnhancedChunkTool.tools_handler (H := Sample.runtime)
         (llm_always NoResponse) (fs (Sample.saved Sample.document)))
      (EnhancedChunkTool.execute (H := Sample.runtime)
         (EnhancedChunkTool.init None)
         (Sample.chunk_run Sample.context_file 0 50)) tt
  = (error_result (lit "LLM client not available for enhanced_chunk_tool") 1,
     tt, [])
  /\ calls is_meta_call
       (snd (run (EnhancedChunkTool.tools_handler (H := Sample.runtime)
                    (llm_always NoResponse)
                    (fs (Sample.saved Sample.document)))
               (EnhancedChunkTool.execute (H := Sample.runtime)
                  (EnhancedChunkTool.init None)
                  (Sample.chunk_run Sample.context_file 0 50)) tt))
     = 0%nat.
Proof.
  apply (no_client_no_enhancement (H := Sample.runtime)). reflexivity.
Defined.

(** C10 at an enhanced prompt of two lines with blanks around it. *)
Lemma extract_format_roundtrip_witness :
  EnhancedChunkTool._extract_enhanced_prompt
    (MetaPromptTool.format_result (lit "short prompt")
       (lit "  Find the drinks.
Answer in one line.  "))
  = lit "Find the drinks.
Answer in one line.".
Proof.
  apply (extract_format_roundtrip (lit "short prompt")
           (lit "  Find the drinks.
Answer in one line.  ")).
  vm_compute. reflexivity.
Defined.

(** C4 at a text of separators only and at a report without
    markers. *)
Lemma extraction_and_sanitization_total_witness :
  EnhancedChunkTool._extract_enhanced_prompt (lit "---
---") = lit "---
---" /\
  EnhancedChunkTool._clean_chunk_output (lit "no structure") (lit "c") 0 12
  = EnhancedChunkTool.clean_result (lit "c") 0 12 [].
Proof.
  destruct (extraction_and_sanitization_total (lit "---
---") (lit "c") 0 12) as (_ & Hextract & _).
  destruct (extraction_and_sanitization_total (lit "no structure") (lit "c") 0 12)
    as (_ & _ & Hclean & _).
  split.
  - apply Hextract. vm_compute. reflexivity.
  - apply Hclean; vm_compute; reflexivity.
Defined.

(** C7 as stated fails: for the text of the scenario the save
    operation reports 40 characters, not 41. *)
Lemma save_reports_40_characters :
  ContextFileManagerTool.statistics Sample.hello = (40, 3, 8) /\
  ContextFileManagerTool.statistics Sample.hello <> (41, 3, 8) /\
  output (fst (ContextFileManagerTool.execute (H := Sample.runtime)
                 Sample.context_tool (Sample.save Sample.hello) Sample.agent0))
  = Some (ContextFileManagerTool.save_report Sample.context_file 40 3 8) /\
  contains (lit "41 characters")
    (ContextFileManagerTool.save_report Sample.context_file 40 3 8) = false.
Proof.
  split; [vm_compute; reflexivity|].
  split; [vm_compute; discriminate|].
  split; vm_compute; reflexivity.
Qed.

(** The statistics theorem at the text of the scenario, saved by a
    fresh agent. *)
Lemma save_reports_statistics_witness :
  exists s',
    ContextFileManagerTool._save_context (H := Sample.runtime)
      Sample.context_tool (Sample.save Sample.hello) Sample.agent0
    = inr (ok_result
             (ContextFileManagerTool.save_report Sample.context_file 40 3 8),
           s').
Proof.
  destruct (save_reports_statistics (H := Sample.runtime) Sample.context_tool
              (Sample.save Sample.hello) Sample.agent0 Sample.hello)
    as (s' & _ & _ & Hhello).
  - reflexivity.
  - discriminate.
  - vm_compute. set_solver.
  - vm_compute. set_solver.
  - exists s'. apply Hhello. reflexivity.
Defined.



(** * Further properties *)

(** ** More on strings *)

Section MoreStrings.

Implicit Types (s t p : str) (c : ascii).

Lemma lstrip_length s : (length (lstrip s) <= length s)%nat.
Proof.
  induction s as [|c s IH]; simpl; [lia|]. destruct (isspace c); simpl; lia.
Qed.

Lemma lstrip_idempotent s : lstrip (lstrip s) = lstrip s.
Proof.
  induction s as [|c s IH]; [reflexivity|].
  simpl. destruct (isspace c) eqn:Hc; [exact IH|]. simpl. rewrite Hc. reflexivity.
Qed.

(** A string that [lstrip] leaves alone, cut after a first part that is
    not empty: [lstrip] leaves the first part alone too. *)
Lemma lstrip_fixed_prefix s t :
  lstrip (s ++ t) = s ++ t -> s <> [] -> lstrip s = s.
Proof.
  destruct s as [|c s]; [congruence|]. intros Hfix _. simpl in *.
  destruct (isspace c); [|reflexivity].
  pose proof (lstrip_length (s ++ t)) as Hlen. rewrite Hfix in Hlen.
  simpl in Hlen. lia.
Qed.

Lemma strip_fixed s : lstrip s = s -> lstrip (rev s) = rev s -> strip s = s.
Proof.
  intros Hl Hr. unfold strip, rstrip. rewrite Hr, rev_involutive. exact Hl.
Qed.

Lemma strip_idempotent s : strip (strip s) = strip s.
Proof.
  apply strip_fixed.
  - unfold strip. apply lstrip_idempotent.
  - unfold strip. set (y := rstrip s).
    assert (lstrip (rev y) = rev y) as Hy.
    { unfold y, rstrip. rewrite rev_involutive. apply lstrip_idempotent. }
    destruct (lstrip_suffix y) as [a Ha].
    destruct (lstrip y) as [|c l] eqn:Hl; [reflexivity|].
    apply (lstrip_fixed_prefix _ (rev a)).
    + rewrite <- rev_app_distr, <- Ha. exact Hy.
    + intros Hnil. apply (f_equal (@length _)) in Hnil.
      rewrite length_rev in Hnil. discriminate Hnil.
Qed.

(** A line of a text is a piece of it. *)
Lemma split_head_prefix c s l ls : split c s = l :: ls -> exists r, s = l ++ r.
Proof.
  revert l ls. induction s as [|x s IH]; intros l ls; simpl.
  - intros [= <- <-]. exists []. reflexivity.
  - destruct (ascii_eqb x c).
    + intros [= <- <-]. exists (x :: s). reflexivity.
    + destruct (split c s) as [|l' ls'] eqn:Hs.
      * intros [= <- <-]. destruct (split_cons_form c s) as [? [? Hf]]. congruence.
      * intros [= <- <-]. destruct (IH l' ls' eq_refl) as [r ->].
        exists r. reflexivity.
Qed.

Lemma contains_cons p x s : contains p s = true -> contains p (x :: s) = true.
Proof.
  rewrite !contains_true. intros [a [b ->]]. exists (x :: a), b. reflexivity.
Qed.

Lemma split_line_piece c s line :
  In line (split c s) -> contains line s = true.
Proof.
  revert line. induction s as [|x s IH]; intros line Hin; cbn [split] in Hin.
  - destruct Hin as [<- | []]. reflexivity.
  - destruct (ascii_eqb x c).
    + destruct Hin as [<- | Hin]; [reflexivity | apply contains_cons, IH, Hin].
    + destruct (split c s) as [|l ls] eqn:Hs.
      * destruct (split_cons_form c s) as [? [? Hf]]. congruence.
      * destruct Hin as [<- | Hin].
        -- destruct (split_head_prefix c s l ls Hs) as [r ->].
           apply contains_true. exists [], r. reflexivity.
        -- apply contains_cons, IH. right. exact Hin.
Qed.

(** *** Searching lines *)

Lemma find_index_app {A} (p : A -> bool) pre x post :
  forallb (fun y => negb (p y)) pre = true -> p x = true ->
  find_index p (pre ++ x :: post) = Some (length pre).
Proof.
  intros Hpre Hx. induction pre as [|y pre IH]; simpl.
  - rewrite Hx. reflexivity.
  - simpl in Hpre. apply andb_prop in Hpre as [Hy Hpre].
    apply negb_true_iff in Hy. rewrite Hy, (IH Hpre). reflexivity.
Qed.

Lemma take_until_all {A} (p : A -> bool) l :
  forallb (fun y => negb (p y)) l = true -> take_until p l = l.
Proof.
  induction l as [|y l IH]; [reflexivity|]. simpl. intros Hl.
  apply andb_prop in Hl as [Hy Hl]. apply negb_true_iff in Hy.
  rewrite Hy, (IH Hl). reflexivity.
Qed.

(** Once the loop has met a line that stops it, what follows does not
    matter. *)
Lemma take_until_stops {A} (p : A -> bool) l rest :
  forallb (fun y => negb (p y)) l = false ->
  take_until p (l ++ rest) = take_until p l.
Proof.
  induction l as [|y l IH]; [discriminate|]. simpl.
  destruct (p y); [reflexivity|]. simpl. intros Hl. rewrite (IH Hl). reflexivity.
Qed.

(** The lines kept by a loop that runs over the lines of [s], then a
    blank line, then a line that stops it: stripped and joined, they are
    the lines kept of [s] alone. *)
Lemma take_until_lines (p : str -> bool) s stop rest :
  p [] = false -> p stop = true ->
  strip (join [NL] (take_until p (split NL s ++ [] :: stop :: rest)))
  = strip (join [NL] (take_until p (split NL s))).
Proof.
  intros Hblank Hstop.
  destruct (forallb (fun y => negb (p y)) (split NL s)) eqn:Hall.
  - rewrite (take_until_all p (split NL s)) by exact Hall.
    change (split NL s ++ [] :: stop :: rest)
      with (split NL s ++ [[]] ++ stop :: rest).
    rewrite app_assoc, take_until_app.
    + destruct (split_cons_form NL s) as [l [ls Hl]].
      rewrite join_app by (rewrite ?Hl; congruence).
      cbn [join]. rewrite app_nil_r. apply strip_space. reflexivity.
    + rewrite forallb_app, Hall. simpl. rewrite Hblank. reflexivity.
    + exact Hstop.
  - rewrite take_until_stops by exact Hall. reflexivity.
Qed.

(** *** Asterisks *)

Lemma no_star_app s t : no_star (s ++ t) = no_star s && no_star t.
Proof. apply forallb_app. Qed.

Lemma digits_fuel_no_star fuel n : no_star (digits_fuel fuel n) = true.
Proof.
  assert (forall d, (d < 10)%N -> negb (ascii_eqb (digit_char d) "*"%char) = true)
    as Hdigit.
  { intros d Hd. do 10 (destruct d as [|d] using N.peano_ind;
      [reflexivity | rewrite <- N.add_1_r in *; try lia]);
      try reflexivity. }
  revert n. induction fuel as [|fuel IH]; intros n; [reflexivity|].
  simpl. destruct (N.ltb_spec n 10).
  - simpl. rewrite Hdigit by assumption. reflexivity.
  - rewrite no_star_app, IH. simpl. rewrite Hdigit; [reflexivity|].
    apply N.mod_upper_bound. lia.
Qed.

Lemma no_star_rev s : no_star (rev s) = no_star s.
Proof.
  unfold no_star. destruct (forallb _ s) eqn:Hs.
  - apply forallb_forall. intros x Hx. apply in_rev in Hx.
    rewrite forallb_forall in Hs. auto.
  - destruct (forallb _ (rev s)) eqn:Hr; [|reflexivity].
    rewrite forallb_forall in Hr.
    assert (forallb (fun c => negb (ascii_eqb c "*"%char)) s = true); [|congruence].
    apply forallb_forall. intros x Hx. apply Hr. apply in_rev.
    rewrite rev_involutive. exact Hx.
Qed.

Lemma group3_rev_no_star (r : str) : no_star r = true -> no_star (group3_rev r) = true.
Proof.
  assert (forall n (r : str), (length r <= n)%nat -> no_star r = true ->
                              no_star (group3_rev r) = true) as Hn.
  { clear r. induction n as [|n IH]; intros r Hlen Hr.
    - destruct r; [reflexivity | simpl in Hlen; lia].
    - destruct r as [|a [|b [|c [|d r]]]]; try exact Hr.
      cbn [group3_rev]. unfold no_star in *. cbn [forallb] in *.
      apply andb_prop in Hr as [Ha Hr]. apply andb_prop in Hr as [Hb Hr].
      apply andb_prop in Hr as [Hc Hr]. rewrite Ha, Hb, Hc.
      cbn [andb]. change (negb (ascii_eqb (ascii_of_nat 44) "*"%char)) with true.
      cbn [andb]. apply (IH (d :: r)); [simpl in *; lia | exact Hr]. }
  apply (Hn (length r)). lia.
Qed.

Lemma str_of_Z_no_star z : no_star (str_of_Z z) = true.
Proof.
  destruct z; unfold str_of_Z, str_of_N; rewrite ?no_star_app;
    rewrite digits_fuel_no_star; reflexivity.
Qed.

Lemma format_comma_no_star z : no_star (format_comma z) = true.
Proof.
  destruct z; unfold format_comma, commas, str_of_N; rewrite ?no_star_app;
    rewrite no_star_rev, group3_rev_no_star;
    rewrite ?no_star_rev, ?digits_fuel_no_star; reflexivity.
Qed.

(** *** Where a piece of a concatenation lies *)

Lemma contains_app_cases p x y :
  contains p (x ++ y) = true ->
  contains p x = true \/ contains p y = true \/
  exists l l', p = l ++ l' /\ l <> [] /\ l' <> [] /\
               (exists a, x = a ++ l) /\ (exists b, y = l' ++ b).
Proof.
  rewrite contains_true. intros [a [b Heq]].
  symmetry in Heq. apply app_eq_app in Heq as [l [[-> ->] | [-> Heq]]].
  - right. left. apply contains_true. exists l, b. reflexivity.
  - apply app_eq_app in Heq as [l' [[-> ->] | [-> ->]]].
    + destruct l as [|c l].
      * right. left. apply contains_true. exists [], b. reflexivity.
      * destruct l' as [|c' l'].
        -- left. apply contains_true. exists a, [].
           simpl. rewrite !app_nil_r. reflexivity.
        -- right. right. exists (c :: l), (c' :: l').
           repeat split; try congruence; eexists; reflexivity.
    + left. apply contains_true. exists a, l'. reflexivity.
Qed.

Lemma ends_with_star_snoc s : ends_with_star (s ++ ["*"%char]) = true.
Proof. unfold ends_with_star. rewrite rev_app_distr. reflexivity. Qed.

Lemma ends_with_star_app s t :
  ends_with_star (s ++ t) = if nonempty t then ends_with_star t else ends_with_star s.
Proof.
  unfold ends_with_star.
  destruct t as [|c t]; [rewrite app_nil_r; reflexivity|].
  rewrite rev_app_distr.
  cbn [nonempty]. destruct (rev (c :: t)) as [|d r] eqn:Hr; [|reflexivity].
  apply (f_equal (@length _)) in Hr. rewrite length_rev in Hr. discriminate Hr.
Qed.

Lemma marker_free_app s t :
  marker_free s = true -> marker_free t = true -> marker_free (s ++ t) = true.
Proof.
  unfold marker_free. intros Hs Ht.
  apply andb_prop in Hs as [Hs Hse]. apply andb_prop in Ht as [Ht Hte].
  apply negb_true_iff in Hs, Hse, Ht, Hte.
  apply andb_true_intro. split; apply negb_true_iff.
  - destruct (contains (lit "**A") (s ++ t)) eqn:Hc; [exfalso | reflexivity].
    apply contains_app_cases in Hc as [Hc | [Hc | Hc]]; try congruence.
    destruct Hc as (l & l' & Hp & Hl & Hl' & [a ->] & _).
    assert (ends_with_star (a ++ l) = true); [|congruence].
    destruct l as [|c1 [|c2 [|c3 l]]]; try congruence.
    + injection Hp as <- _. apply ends_with_star_snoc.
    + injection Hp as <- <- _.
      change (a ++ ["*"%char; "*"%char]) with (a ++ ["*"%char] ++ ["*"%char]).
      rewrite app_assoc. apply ends_with_star_snoc.
    + injection Hp as _ _ _ Hnil. destruct l, l'; simpl in Hnil; congruence.
  - rewrite ends_with_star_app. destruct (nonempty t); assumption.
Qed.

Lemma no_star_marker_free s : no_star s = true -> marker_free s = true.
Proof.
  intros Hs. unfold marker_free. apply andb_true_intro. split; apply negb_true_iff.
  - destruct (contains (lit "**A") s) eqn:Hc; [exfalso | reflexivity].
    apply contains_true in Hc as [a [b ->]].
    rewrite no_star_app in Hs. apply andb_prop in Hs as [_ Hs]. discriminate Hs.
  - unfold ends_with_star. destruct (rev s) as [|c r] eqn:Hr; [reflexivity|].
    rewrite <- no_star_rev, Hr in Hs. unfold no_star in Hs. simpl in Hs.
    apply andb_prop in Hs as [Hc _]. apply negb_true_iff in Hc. exact Hc.
Qed.

End MoreStrings.

(** ** What extraction and sanitization keep *)

Section Kept.

Import EnhancedChunkTool.

(** Extraction from the success report of the enhancement stage keeps
    the lines of the enhanced prompt before its first separator line. *)
Lemma extract_of_format (simple_prompt E : str) :
  _extract_enhanced_prompt (MetaPromptTool.format_result simple_prompt E)
  = strip (join [NL] (take_until separator_line (split NL E))).
Proof.
  unfold _extract_enhanced_prompt.
  destruct (format_result_lines simple_prompt E) as [summary ->].
  unfold prompt_start_idx.
  change ([SUCCESS_MARKER; []] ++ ?x) with (SUCCESS_MARKER :: [] :: x).
  rewrite marker_found. cbn [drop Nat.add]. rewrite drop_0.
  change (split NL E ++ [[]; SEPARATOR] ++ summary)
    with (split NL E ++ [] :: SEPARATOR :: summary).
  apply (take_until_lines separator_line); reflexivity.
Qed.

(** X1. An enhanced prompt is cut at its first separator line: whatever
    the model wrote, the instruction extracted from the report of
    [MetaPromptTool] is made of the lines before the first line that,
    stripped, reads [---]. *)
Theorem extraction_cuts_at_separator (simple_prompt E : str) :
  _extract_enhanced_prompt (MetaPromptTool.format_result simple_prompt E)
  = strip (join [NL] (take_until separator_line (split NL E))).
Proof. apply extract_of_format. Qed.

(** The report of the chunk tool, cut at the analysis marker. *)
Lemma chunk_report_shape (chunk_id query chunk_text response : str)
  (start_pos end_pos : Z) :
  exists footer,
    TextChunkTool.format_result chunk_id start_pos end_pos query chunk_text
      response
    = (lit "**Chunk Processing Result**

**Chunk Info:** " ++ chunk_id ++ lit " (position " ++ str_of_Z start_pos
       ++ lit ":" ++ str_of_Z end_pos ++ lit ")
**Query:** " ++ query ++ lit "
**Chunk Size:** " ++ format_comma (len chunk_text) ++ lit " characters
")
      ++ NL :: lit "**Analysis Result:**"
      ++ NL :: strip response
      ++ NL :: [] ++ NL :: lit "---" ++ NL :: footer.
Proof.
  unfold TextChunkTool.format_result. eexists.
  rewrite <- !app_assoc. do 10 f_equal.
Qed.

(** No line of the head of the report holds the analysis marker, when
    neither the chunk id nor the query holds an asterisk. *)
Lemma chunk_report_head (chunk_id query size : str) (start_pos end_pos : Z) :
  no_star chunk_id = true -> no_star query = true -> no_star size = true ->
  forallb (fun line => negb (contains (lit "**Analysis Result:**") line))
    (split NL
       (lit "**Chunk Processing Result**

**Chunk Info:** " ++ chunk_id ++ lit " (position " ++ str_of_Z start_pos
        ++ lit ":" ++ str_of_Z end_pos ++ lit ")
**Query:** " ++ query ++ lit "
**Chunk Size:** " ++ size ++ lit " characters
")) = true.
Proof.
  intros Hid Hq Hsize.
  match goal with |- forallb _ (split NL ?h) = true => set (head := h) end.
  assert (marker_free head = true) as Hfree.
  { unfold head.
    repeat (apply marker_free_app;
            [first [ reflexivity
                   | apply no_star_marker_free;
                     first [ assumption | apply str_of_Z_no_star ] ] |]).
    reflexivity. }
  apply forallb_forall. intros line Hin. apply negb_true_iff.
  destruct (contains _ line) eqn:Hline; [exfalso | reflexivity].
  unfold marker_free in Hfree. apply andb_prop in Hfree as [Hfree _].
  apply negb_true_iff in Hfree.
  assert (contains (lit "**A") head = true); [|congruence].
  eapply contains_trans; [|apply (split_line_piece NL); exact Hin].
  eapply contains_trans; [|exact Hline]. reflexivity.
Qed.

(** Cleaning the report of the chunk tool keeps the lines of the
    stripped response before its first line that stops the loop. *)
Lemma clean_of_format (chunk_id query chunk_text response : str)
  (start_pos end_pos : Z) (id : str) (from to : Z) :
  no_star chunk_id = true -> no_star query = true ->
  _clean_chunk_output
    (TextChunkTool.format_result chunk_id start_pos end_pos query chunk_text
       response) id from to
  = clean_result id from to
      (strip (join [NL] (take_until stop_line (split NL (strip response))))).
Proof.
  intros Hid Hq.
  destruct (chunk_report_shape chunk_id query chunk_text response
              start_pos end_pos) as [footer ->].
  pose proof (chunk_report_head chunk_id query (format_comma (len chunk_text))
                start_pos end_pos Hid Hq (format_comma_no_star _)) as Hhead.
  match type of Hhead with forallb _ (split NL ?h) = true => set (head := h) in * end.
  unfold _clean_chunk_output, _clean_chunk_output_try, result_start_idx.
  rewrite split_app, split_app, split_app, split_app, split_app.
  change (split NL (lit "**Analysis Result:**")) with [lit "**Analysis Result:**"].
  change (split NL (lit "---")) with [lit "---"].
  change (split NL []) with [@nil ascii].
  cbn [app].
  rewrite (find_index_app _ (split NL head)) by (exact Hhead || reflexivity).
  cbn [mbind option_bind]. unfold analysis_content.
  replace (drop (length (split NL head) + 1) _)
    with (split NL (strip response) ++ [] :: lit "---" :: split NL footer).
  - rewrite (take_until_lines stop_line) by reflexivity. reflexivity.
  - rewrite Nat.add_1_r.
    change (split NL head ++ ?m :: ?rest) with (split NL head ++ [m] ++ rest).
    rewrite app_assoc.
    rewrite drop_app_length'; [reflexivity|]. rewrite length_app. simpl. lia.
Qed.

(** X2. The analysis handed to the caller is the model's answer cut at
    its first stop line.  When neither the chunk id nor the query holds an
    asterisk, cleaning the report that [TextChunkTool] builds around a
    response gives the clean report whose analysis is the stripped response
    up to its first line that starts with [---] or mentions the processing
    status or the tokens used; a response without such a line is kept
    whole. *)
Theorem sanitization_cuts_at_stop_line
  (chunk_id query chunk_text response : str) (start_pos end_pos : Z) :
  no_star chunk_id = true -> no_star query = true ->
  _clean_chunk_output
    (TextChunkTool.format_result chunk_id start_pos end_pos query chunk_text
       response) chunk_id start_pos end_pos
  = clean_result chunk_id start_pos end_pos
      (strip (join [NL] (take_until stop_line (split NL (strip response)))))
  /\ (forallb (fun line => negb (stop_line line)) (split NL (strip response))
      = true ->
      _clean_chunk_output
        (TextChunkTool.format_result chunk_id start_pos end_pos query
           chunk_text response) chunk_id start_pos end_pos
      = clean_result chunk_id start_pos end_pos (strip response)).
Proof.
  intros Hid Hq. split.
  - apply clean_of_format; assumption.
  - intros Hall. rewrite clean_of_format by assumption.
    rewrite take_until_all by exact Hall.
    rewrite join_split, strip_idempotent. reflexivity.
Qed.

End Kept.

(** ** The protocol of the orchestrator *)

Section Protocol.

Import EnhancedChunkTool.
Context `{Runtime}.

(** [execute] passes its checks exactly when this holds. *)
Lemma execute_rejects (self : t) (arguments : args) :
  negb (bool_decide (is_Some (llm_client self))
        && bool_decide (is_Some (meta_tool self))
        && bool_decide (is_Some (chunk_tool self))
        && truthy (file_path arguments) && is_int (start_pos arguments)
        && is_int (end_pos arguments) && truthy (query arguments)
        && truthy (simple_prompt arguments)) = true ->
  exists msg, execute self arguments = Ret (error_result msg 1).
Proof.
  unfold execute.
  destruct (llm_client self) as [client|]; [|eexists; reflexivity].
  destruct (meta_tool self) as [meta|], (chunk_tool self) as [chunk|];
    try (eexists; reflexivity).
  destruct (file_path arguments) as [[|c0 fp]|],
           (start_pos arguments) as [sp|], (end_pos arguments) as [ep|],
           (query arguments) as [[|c1 q]|],
           (simple_prompt arguments) as [[|c2 p]|];
    try (eexists; reflexivity).
  intros Hbad. cbn in Hbad. discriminate Hbad.
Qed.

(** The control flow of [execute] once its checks are passed, with the
    arguments it hands on. *)
Lemma execute_flow (self : t) (arguments : args) :
  bool_decide (is_Some (llm_client self))
  && bool_decide (is_Some (meta_tool self))
  && bool_decide (is_Some (chunk_tool self))
  && truthy (file_path arguments) && is_int (start_pos arguments)
  && is_int (end_pos arguments) && truthy (query arguments)
  && truthy (simple_prompt arguments) = true ->
  exists meta chunk file_path start_pos end_pos query simple_prompt k,
    meta_tool self = Some meta /\ chunk_tool self = Some chunk /\
    EnhancedChunkTool.file_path arguments = Some file_path /\
    EnhancedChunkTool.start_pos arguments = Some start_pos /\
    EnhancedChunkTool.end_pos arguments = Some end_pos /\
    EnhancedChunkTool.query arguments = Some query /\
    EnhancedChunkTool.simple_prompt arguments = Some simple_prompt /\
    let chunk_id :=
      default (TextChunkTool.default_chunk_id (Some start_pos) (Some end_pos))
              (chunk_id arguments) in
    execute self arguments
    = Vis (MetaExecute meta
             {| MetaPromptTool.simple_prompt := Some simple_prompt;
                MetaPromptTool.task_context :=
                  Some (default [] (task_context arguments)) |}) k /\
    (forall e, exists msg, k (inl e) = Ret (error_result msg 1)) /\
    (forall r err, error r = Some err ->
       k (inr r)
       = Ret (error_result
                (lit "Internal prompt enhancement failed: " ++ err) 1)) /\
    (forall r, error r = None -> output r = None ->
       exists msg, k (inr r) = Ret (error_result msg 1)) /\
    (forall r meta_output, error r = None -> output r = Some meta_output ->
       exists k2,
         k (inr r)
         = Vis (ChunkExecute chunk
                  (chunk_args_of file_path start_pos end_pos query
                     (_extract_enhanced_prompt meta_output) chunk_id)) k2 /\
         (forall e, exists msg, k2 (inl e) = Ret (error_result msg 1)) /\
         (forall c err, error c = Some err ->
            k2 (inr c)
            = Ret (error_result
                     (lit "Internal chunk processing failed: " ++ err)
                     (error_code c))) /\
         (forall c, error c = None ->
            k2 (inr c)
            = Ret {| output :=
                       option_map
                         (fun chunk_output =>
                            _clean_chunk_output chunk_output chunk_id
                              start_pos end_pos)
                         (output c);
                     error := None;
                     error_code := 0 |})).
Proof.
  unfold execute.
  destruct (llm_client self) as [client|]; [|discriminate].
  destruct (meta_tool self) as [meta|], (chunk_tool self) as [chunk|];
    try discriminate.
  destruct (file_path arguments) as [[|c0 fp]|],
           (start_pos arguments) as [sp|], (end_pos arguments) as [ep|],
           (query arguments) as [[|c1 q]|],
           (simple_prompt arguments) as [[|c2 p]|];
    try (cbn; discriminate).
  intros _. cbn [truthy is_int andb negb].
  exists meta, chunk, (c0 :: fp), sp, ep, (c1 :: q), (c2 :: p).
  eexists. do 7 (split; [reflexivity|]). cbv zeta. split; [reflexivity|].
  split; [intros e; eexists; reflexivity|]. split.
  { intros r err ->. reflexivity. }
  split.
  { intros r -> ->. eexists. reflexivity. }
  intros r meta_output -> ->. eexists. split; [reflexivity|].
  split; [intros e; eexists; reflexivity|]. split.
  - intros c err ->. reflexivity.
  - intros c ->. reflexivity.
Qed.

(** The runs of [execute], by the calls they make. *)
Lemma execute_runs {S} (h : forall X, orch_event X -> S -> X * S)
  (s s' : S) (self : t) (arguments : args) (r : ToolExecResult)
  (tr : list (call orch_event)) :
  run h (execute self arguments) s = (r, s', tr) ->
  (tool_calls tr = [] /\ s' = s /\ exists msg, r = error_result msg 1)
  \/ (exists meta meta_args x,
        tool_calls tr = [MetaCalled meta meta_args x] /\
        (exists msg, r = error_result msg 1) /\
        match x with
        | inl _ => True
        | inr mr => error mr = None -> output mr = None
        end)
  \/ (exists meta meta_args mr mo chunk fp sp ep q y,
        let chunk_id :=
          default (TextChunkTool.default_chunk_id (Some sp) (Some ep))
                  (chunk_id arguments) in
        tool_calls tr
        = [ MetaCalled meta meta_args (inr mr);
            ChunkCalled chunk
              (chunk_args_of fp sp ep q (_extract_enhanced_prompt mo) chunk_id)
              y ] /\
        error mr = None /\ output mr = Some mo /\
        file_path arguments = Some fp /\ start_pos arguments = Some sp /\
        end_pos arguments = Some ep /\ query arguments = Some q /\
        match y with
        | inl _ => exists msg, r = error_result msg 1
        | inr c =>
            match error c with
            | Some err =>
                r = error_result
                      (lit "Internal chunk processing failed: " ++ err)
                      (error_code c)
            | None =>
                r = {| output :=
                         option_map
                           (fun chunk_output =>
                              _clean_chunk_output chunk_output chunk_id sp ep)
                           (output c);
                       error := None;
                       error_code := 0 |}
            end
        end).
Proof.
  intros Hrun.
  destruct (bool_decide (is_Some (llm_client self))
            && bool_decide (is_Some (meta_tool self))
            && bool_decide (is_Some (chunk_tool self))
            && truthy (file_path arguments) && is_int (start_pos arguments)
            && is_int (end_pos arguments) && truthy (query arguments)
            && truthy (simple_prompt arguments)) eqn:Hvalid.
  2:{ left. destruct (execute_rejects self arguments) as [msg Hexec].
      { rewrite Hvalid. reflexivity. }
      rewrite Hexec, run_ret in Hrun. injection Hrun as <- <- <-.
      repeat split. exists msg. reflexivity. }
  right.
  destruct (execute_flow self arguments Hvalid)
    as (meta & chunk & fp & sp & ep & q & p & k & _ & _ & Hfp & Hsp & Hep & Hq
        & _ & Hexec & Hraise & Hfail & Hnone & Hok).
  cbv zeta in Hexec. rewrite Hexec, run_vis in Hrun.
  destruct (h _ _ s) as [[e|mr] s1]; cbn [fst snd] in Hrun.
  { destruct (Hraise e) as [msg Hmsg]. rewrite Hmsg, run_ret in Hrun.
    injection Hrun as <- <- <-. left. do 3 eexists.
    split; [reflexivity|]. split; [exists msg; reflexivity | exact I]. }
  destruct (error mr) as [err|] eqn:Hmr.
  { rewrite (Hfail _ _ Hmr), run_ret in Hrun. injection Hrun as <- <- <-.
    left. do 3 eexists. split; [reflexivity|].
    split; [eexists; reflexivity | congruence]. }
  destruct (output mr) as [mo|] eqn:Hmo.
  2:{ destruct (Hnone _ Hmr Hmo) as [msg Hmsg].
      rewrite Hmsg, run_ret in Hrun. injection Hrun as <- <- <-.
      left. do 3 eexists. split; [reflexivity|].
      split; [exists msg; reflexivity | intros _; exact Hmo]. }
  right. destruct (Hok _ _ Hmr Hmo) as (k2 & Hk & Hraise2 & Hfail2 & Hok2).
  rewrite Hk, run_vis in Hrun.
  destruct (run h (k2 _) _) as [[r2 s2] tr2] eqn:Hrun2.
  injection Hrun as <- <- <-.
  exists meta. eexists. exists mr, mo, chunk, fp, sp, ep, q.
  destruct (h _ _ s1) as [[e|c] s2']; cbn [fst snd] in Hrun2.
  - destruct (Hraise2 e) as [msg Hmsg].
    rewrite Hmsg, run_ret in Hrun2. injection Hrun2 as <- <- <-.
    exists (inl e). cbv zeta. repeat (split; [reflexivity || assumption|]).
    exists msg. reflexivity.
  - exists (inr c). cbv zeta. destruct (error c) as [cerr|] eqn:Hc.
    + rewrite (Hfail2 _ _ Hc), run_ret in Hrun2. injection Hrun2 as <- <- <-.
      repeat (split; [reflexivity || assumption|]). reflexivity.
    + rewrite (Hok2 _ Hc), run_ret in Hrun2. injection Hrun2 as <- <- <-.
      repeat (split; [reflexivity || assumption|]). reflexivity.
Qed.

(** X3. Enhancement strictly precedes chunk processing.  Whatever the
    internal tools answer, a run of the orchestrator calls nothing, or the
    enhancement stage alone, or the enhancement stage and then the
    chunk-processing stage, each once; the chunk-processing stage is called
    only after an enhancement without error, with the caller's path,
    positions and query unchanged and the instruction extracted from the
    output of the enhancement. *)
Theorem enhancement_precedes_processing {S}
  (h : forall X, orch_event X -> S -> X * S)
  (s s' : S) (self : t) (arguments : args) (r : ToolExecResult)
  (tr : list (call orch_event)) :
  run h (execute self arguments) s = (r, s', tr) ->
  tool_calls tr = []
  \/ (exists meta meta_args x, tool_calls tr = [MetaCalled meta meta_args x])
  \/ (exists meta meta_args mr mo chunk fp sp ep q y,
        tool_calls tr
        = [ MetaCalled meta meta_args (inr mr);
            ChunkCalled chunk
              (chunk_args_of fp sp ep q (_extract_enhanced_prompt mo)
                 (default
                    (TextChunkTool.default_chunk_id (Some sp) (Some ep))
                    (chunk_id arguments)))
              y ] /\
        error mr = None /\ output mr = Some mo /\
        file_path arguments = Some fp /\ start_pos arguments = Some sp /\
        end_pos arguments = Some ep /\ query arguments = Some q).
Proof.
  intros Hrun.
  destruct (execute_runs h s s' self arguments r tr Hrun)
    as [[Hnil _] | [(meta & a & x & Htr & _) | Hboth]].
  - left. exact Hnil.
  - right. left. exists meta, a, x. exact Htr.
  - right. right.
    destruct Hboth as (meta & a & mr & mo & chunk & fp & sp & ep & q & y & Hboth).
    cbv zeta in Hboth.
    destruct Hboth as (Htr & Hmr & Hmo & Hfp & Hsp & Hep & Hq & _).
    exists meta, a, mr, mo, chunk, fp, sp, ep, q, y. repeat split; assumption.
Qed.

(** X4. A failure of the chunk-processing stage is passed on with its
    error code: when that stage returns an error, the orchestrator returns
    an error that carries its message and has the same code. *)
Theorem chunk_failure_keeps_code {S} (h : forall X, orch_event X -> S -> X * S)
  (s s' : S) (self : t) (arguments : args) (r : ToolExecResult)
  (tr : list (call orch_event))
  (tool : TextChunkTool.t) (chunk_args : TextChunkTool.args)
  (chunk_result : ToolExecResult) (err : str) :
  run h (execute self arguments) s = (r, s', tr) ->
  In (ChunkCalled tool chunk_args (inr chunk_result)) (tool_calls tr) ->
  error chunk_result = Some err ->
  r = error_result (lit "Internal chunk processing failed: " ++ err)
        (error_code chunk_result).
Proof.
  intros Hrun Hin Herr.
  destruct (execute_runs h s s' self arguments r tr Hrun)
    as [[Hnil _] | [(meta & a & x & Htr & _) | Hboth]].
  - rewrite Hnil in Hin. destruct Hin.
  - rewrite Htr in Hin. destruct Hin as [Hin | []]. discriminate Hin.
  - destruct Hboth as (meta & a & mr & mo & chunk & fp & sp & ep & q & y & Hboth).
    cbv zeta in Hboth. destruct Hboth as (Htr & _ & _ & _ & _ & _ & _ & Hr).
    rewrite Htr in Hin. destruct Hin as [Hin | [Hin | []]]; [discriminate Hin|].
    injection Hin as _ _ Hy. subst y. rewrite Herr in Hr. exact Hr.
Qed.

(** X5. Validation comes before every call.  If the model client or an
    internal tool is missing, or a required argument is absent or empty,
    the run calls nothing, leaves the collaborators as they were and
    returns an error with code 1; otherwise its first call is the
    enhancement stage, with the caller's simple prompt and task
    context. *)
Theorem validation_precedes_calls {S} (h : forall X, orch_event X -> S -> X * S)
  (s s' : S) (self : t) (arguments : args) (r : ToolExecResult)
  (tr : list (call orch_event)) :
  run h (execute self arguments) s = (r, s', tr) ->
  if bool_decide (is_Some (llm_client self))
     && bool_decide (is_Some (meta_tool self))
     && bool_decide (is_Some (chunk_tool self))
     && truthy (file_path arguments) && is_int (start_pos arguments)
     && is_int (end_pos arguments) && truthy (query arguments)
     && truthy (simple_prompt arguments)
  then exists meta answer rest,
         tool_calls tr
         = MetaCalled meta
             {| MetaPromptTool.simple_prompt := simple_prompt arguments;
                MetaPromptTool.task_context :=
                  Some (default [] (task_context arguments)) |} answer
           :: rest
  else tr = [] /\ s' = s /\ exists msg, r = error_result msg 1.
Proof.
  intros Hrun.
  destruct (bool_decide _ && _ && _ && _ && _ && _ && _ && _) eqn:Hvalid.
  - destruct (execute_flow self arguments Hvalid)
      as (meta & chunk & fp & sp & ep & q & p & k & _ & _ & _ & _ & _ & _
          & Hp & Hexec & _).
    cbv zeta in Hexec. rewrite Hexec, run_vis in Hrun.
    destruct (run h (k _) _) as [[r1 s1] tr1]. injection Hrun as <- <- <-.
    exists meta. eexists. exists (tool_calls tr1). rewrite Hp. reflexivity.
  - destruct (execute_rejects self arguments) as [msg Hexec].
    { rewrite Hvalid. reflexivity. }
    rewrite Hexec, run_ret in Hrun. injection Hrun as <- <- <-.
    repeat split. exists msg. reflexivity.
Qed.

End Protocol.

(** ** The orchestrator with its own tools *)

Section Pipeline.

Import EnhancedChunkTool.
Context `{Runtime}.

Lemma default_chunk_id_no_star (start_pos end_pos : Z) :
  no_star (TextChunkTool.default_chunk_id (Some start_pos) (Some end_pos)) = true.
Proof.
  unfold TextChunkTool.default_chunk_id, str_of_arg.
  rewrite !no_star_app, !str_of_Z_no_star. reflexivity.
Qed.

(** The enhancement stage, answered by the next response of the
    script. *)
Lemma scripted_enhancement (w : FS.world) (client : LLMClient)
  (simple_prompt task_context E : str) (rest : list chat_outcome) :
  simple_prompt <> [] -> E <> [] ->
  tools_handler llm_script w _
    (MetaExecute (MetaPromptTool.mk (Some client))
       {| MetaPromptTool.simple_prompt := Some simple_prompt;
          MetaPromptTool.task_context := Some task_context |})
    (Response (Some E) :: rest)
  = (inr (ok_result (MetaPromptTool.format_result simple_prompt (strip E))),
     rest).
Proof.
  intros Hp HE. destruct simple_prompt as [|c p]; [congruence|].
  destruct E as [|d E]; [congruence|]. reflexivity.
Qed.

(** The chunk-processing stage on plain text, answered by the next
    response of the script. *)
Lemma scripted_processing (w : FS.world) (client : LLMClient)
  (path text query instruction chunk_id R : str) (start_pos end_pos : Z)
  (rest : list chat_outcome) :
  FS.files w !! path = Some (FS.utf8_encode text) ->
  forallb is_plain text = true ->
  path <> [] -> query <> [] -> instruction <> [] -> R <> [] ->
  0 <= start_pos < end_pos -> end_pos <= io_limit ->
  strip (slice text start_pos end_pos) <> [] ->
  tools_handler llm_script w _
    (ChunkExecute (TextChunkTool.mk (Some client))
       (chunk_args_of path start_pos end_pos query instruction chunk_id))
    (Response (Some R) :: rest)
  = (inr (ok_result
            (TextChunkTool.format_result chunk_id start_pos end_pos query
               (slice text start_pos end_pos) R)),
     rest).
Proof.
  intros Hfile Hplain Hp Hq Hi HR Hpos Hlimit Hblank.
  destruct (plain_chunk_is_slice client w path text query instruction chunk_id
              start_pos end_pos Hfile Hplain Hp Hq Hi Hpos Hlimit Hblank)
    as [k [Hexec Hk]].
  destruct R as [|d R]; [congruence|].
  unfold tools_handler, internal_tool. rewrite Hexec.
  cbn [bind run llm_script]. rewrite Hk. reflexivity.
Qed.

(** The chunk-processing stage rejects an empty instruction before it
    looks at the file or calls the model. *)
Lemma unscripted_rejection {S} (llm : forall X, llm_event X -> S -> X * S)
  (w : FS.world) (tool : TextChunkTool.t)
  (path query chunk_id : str) (start_pos end_pos : Z) (st : S) :
  tools_handler llm w _
    (ChunkExecute tool
       (chunk_args_of path start_pos end_pos query [] chunk_id)) st
  = (inr (error_result
            (lit "Required parameters: file_path, start_pos, end_pos, query, enhanced_prompt")
            1), st).
Proof.
  unfold tools_handler, internal_tool, TextChunkTool.execute, chunk_args_of.
  cbn [TextChunkTool.file_path TextChunkTool.start_pos TextChunkTool.end_pos
       TextChunkTool.query TextChunkTool.enhanced_prompt truthy is_int].
  rewrite andb_false_r. reflexivity.
Qed.

(** The orchestrator built on a client, up to its second stage: the
    enhancement answered by the script, and the call that follows. *)
Lemma pipeline_after_enhancement (w : FS.world) (client : LLMClient)
  (path query simple_prompt E : str) (task_context chunk_id : option str)
  (start_pos end_pos : Z) (rest : list chat_outcome) :
  path <> [] -> query <> [] -> simple_prompt <> [] -> E <> [] ->
  exists k2,
    fst (run (tools_handler llm_script w)
           (execute (init (Some client))
              {| file_path := Some path; start_pos := Some start_pos;
                 end_pos := Some end_pos; query := Some query;
                 simple_prompt := Some simple_prompt;
                 task_context := task_context; chunk_id := chunk_id |})
           (Response (Some E) :: rest))
    = (let chunk_call :=
         ChunkExecute (TextChunkTool.mk (Some client))
           (chunk_args_of path start_pos end_pos query
              (strip (join [NL] (take_until separator_line
                                   (split NL (strip E)))))
              (default
                 (TextChunkTool.default_chunk_id (Some start_pos)
                    (Some end_pos)) chunk_id)) in
       fst (run (tools_handler llm_script w)
              (k2 (fst (tools_handler llm_script w _ chunk_call rest)))
              (snd (tools_handler llm_script w _ chunk_call rest)))) /\
    (forall c err, error c = Some err ->
       k2 (inr c)
       = Ret (error_result
                (lit "Internal chunk processing failed: " ++ err)
                (error_code c))) /\
    (forall c, error c = None ->
       k2 (inr c)
       = Ret {| output :=
                  option_map
                    (fun chunk_output =>
                       _clean_chunk_output chunk_output
                         (default
                            (TextChunkTool.default_chunk_id (Some start_pos)
                               (Some end_pos)) chunk_id)
                         start_pos end_pos)
                    (output c);
                error := None;
                error_code := 0 |}).
Proof.
  intros Hp Hq Hsp HE.
  set (arguments := {| file_path := Some path |}).
  destruct (execute_flow (init (Some client)) arguments)
    as (meta & chunk & fp & sp & ep & q & p & k & Hmeta & Hchunk & Hfp & Hs
        & He & Hqq & Hpp & Hexec & _ & _ & _ & Hok).
  { destruct path, query, simple_prompt; try congruence. reflexivity. }
  cbn in Hmeta, Hchunk, Hfp, Hs, He, Hqq, Hpp.
  injection Hmeta as <-. injection Hchunk as <-. injection Hfp as <-.
  injection Hs as <-. injection He as <-. injection Hqq as <-.
  injection Hpp as <-.
  cbv zeta in Hexec, Hok. cbn [EnhancedChunkTool.task_context
                               EnhancedChunkTool.chunk_id arguments] in Hexec, Hok.
  destruct (Hok (ok_result (MetaPromptTool.format_result simple_prompt (strip E)))
              _ eq_refl eq_refl) as (k2 & Hk & _ & Hfail2 & Hok2).
  exists k2. split; [|split; assumption].
  rewrite Hexec, run_vis, scripted_enhancement by assumption.
  cbn [fst snd]. rewrite Hk, run_vis, extract_of_format.
  destruct (run _ (k2 _) _) as [[r2 s2] tr2]. reflexivity.
Qed.

(** X6. A chunk run from end to end.  The context file holds plain text,
    the range is valid, within the reach of the host and not blank, the
    arguments are not empty, and neither the chunk id nor the query holds
    an asterisk.  When the model
    answers the enhancement with [E], from which an instruction that is
    not empty is extracted, and then the chunk with [R], the caller gets
    the clean report whose analysis is [R] stripped and cut at its first
    stop line, and exactly two responses of the model have been used. *)
Theorem chunk_run_succeeds (w : FS.world) (client : LLMClient)
  (path text query simple_prompt E R : str) (task_context chunk_id : option str)
  (start_pos end_pos : Z) (rest : list chat_outcome) :
  let id :=
    default (TextChunkTool.default_chunk_id (Some start_pos) (Some end_pos))
            chunk_id in
  FS.files w !! path = Some (FS.utf8_encode text) ->
  forallb is_plain text = true ->
  path <> [] -> query <> [] -> simple_prompt <> [] -> E <> [] -> R <> [] ->
  0 <= start_pos < end_pos -> end_pos <= io_limit ->
  strip (slice text start_pos end_pos) <> [] ->
  strip (join [NL] (take_until separator_line (split NL (strip E)))) <> [] ->
  no_star id = true -> no_star query = true ->
  fst (run (tools_handler llm_script w)
         (execute (init (Some client))
            {| file_path := Some path; start_pos := Some start_pos;
               end_pos := Some end_pos; query := Some query;
               simple_prompt := Some simple_prompt;
               task_context := task_context; chunk_id := chunk_id |})
         (Response (Some E) :: Response (Some R) :: rest))
  = (ok_result
       (clean_result id start_pos end_pos
          (strip (join [NL] (take_until stop_line (split NL (strip R)))))),
     rest).
Proof.
  intros id Hfile Hplain Hp Hq Hsp HE HR Hpos Hlimit Hblank Hinstr Hid Hqs.
  destruct (pipeline_after_enhancement w client path query simple_prompt E
              task_context chunk_id start_pos end_pos
              (Response (Some R) :: rest) Hp Hq Hsp HE)
    as (k2 & -> & _ & Hok2).
  cbv zeta. fold id.
  rewrite (scripted_processing w client path text) by assumption.
  cbn [fst snd]. rewrite Hok2 by reflexivity. rewrite run_ret.
  cbn [fst output option_map ok_result]. fold id.
  rewrite clean_of_format by assumption. reflexivity.
Qed.

(** X7. An enhancement from which nothing is extracted stops the run at
    the chunk-processing stage.  When the model's enhanced prompt is blank
    or starts with a separator line, so that the instruction extracted is
    empty, the chunk-processing stage rejects its arguments, the
    orchestrator fails with that message, and the model is not called a
    second time. *)
Theorem empty_instruction_fails (w : FS.world) (client : LLMClient)
  (path query simple_prompt E : str) (task_context chunk_id : option str)
  (start_pos end_pos : Z) (rest : list chat_outcome) :
  path <> [] -> query <> [] -> simple_prompt <> [] -> E <> [] ->
  strip (join [NL] (take_until separator_line (split NL (strip E)))) = [] ->
  fst (run (tools_handler llm_script w)
         (execute (init (Some client))
            {| file_path := Some path; start_pos := Some start_pos;
               end_pos := Some end_pos; query := Some query;
               simple_prompt := Some simple_prompt;
               task_context := task_context; chunk_id := chunk_id |})
         (Response (Some E) :: rest))
  = (error_result
       (lit "Internal chunk processing failed: Required parameters: file_path, start_pos, end_pos, query, enhanced_prompt")
       1, rest).
Proof.
  intros Hp Hq Hsp HE Hempty.
  destruct (pipeline_after_enhancement w client path query simple_prompt E
              task_context chunk_id start_pos end_pos rest Hp Hq Hsp HE)
    as (k2 & -> & Hfail2 & _).
  cbv zeta. rewrite Hempty, unscripted_rejection. cbn [fst snd].
  rewrite (Hfail2 (error_result
                     (lit "Required parameters: file_path, start_pos, end_pos, query, enhanced_prompt")
                     1) _ eq_refl), run_ret.
  reflexivity.
Qed.

End Pipeline.

(** ** The two tools that call the model *)

Section ModelCalls.

Context `{Runtime}.

(** [TextChunkTool.execute] ends at once with an error, or makes one
    call and ends on its answer. *)
Lemma chunk_tool_flow (self : TextChunkTool.t) (w : FS.world)
  (arguments : TextChunkTool.args) :
  (exists msg, TextChunkTool.execute self w arguments = Ret (error_result msg 1))
  \/ (exists messages cfg k,
        TextChunkTool.execute self w arguments = Vis (Chat messages cfg) k /\
        forall a,
          if has_content a
          then exists out, k a = Ret (ok_result out)
          else exists msg, k a = Ret (error_result msg 1)).
Proof.
  unfold TextChunkTool.execute.
  destruct (negb _); [left; eexists; reflexivity|].
  destruct (TextChunkTool.file_path arguments) as [fp|],
           (TextChunkTool.start_pos arguments) as [sp|],
           (TextChunkTool.end_pos arguments) as [ep|],
           (TextChunkTool.query arguments) as [q|],
           (TextChunkTool.enhanced_prompt arguments) as [p|];
    try (left; eexists; reflexivity).
  destruct (_ || _); [left; eexists; reflexivity|].
  destruct (TextChunkTool.llm_client self) as [client|];
    [|left; eexists; reflexivity].
  destruct (negb _); [left; eexists; reflexivity|].
  destruct (FS.read_at _ _ _ _) as [e|chunk_text]; [left; eexists; reflexivity|].
  destruct (strip chunk_text); [left; eexists; reflexivity|].
  right. do 3 eexists. split; [reflexivity|].
  intros [e| |[[|c content]|]]; cbn [has_content]; eexists; reflexivity.
Qed.

(** [MetaPromptTool.execute] likewise. *)
Lemma meta_tool_flow (self : MetaPromptTool.t) (arguments : MetaPromptTool.args) :
  (exists msg, MetaPromptTool.execute self arguments = Ret (error_result msg 1))
  \/ (exists messages cfg k,
        MetaPromptTool.execute self arguments = Vis (Chat messages cfg) k /\
        forall a,
          if has_content a
          then exists out, k a = Ret (ok_result out)
          else exists msg, k a = Ret (error_result msg 1)).
Proof.
  unfold MetaPromptTool.execute.
  destruct (MetaPromptTool.simple_prompt arguments) as [[|c p]|];
    try (left; eexists; reflexivity).
  destruct (MetaPromptTool.llm_client self) as [client|];
    [|left; eexists; reflexivity].
  right. do 3 eexists. split; [reflexivity|].
  intros [e| |[[|d content]|]]; cbn [has_content]; eexists; reflexivity.
Qed.

(** What follows for the runs of a tool with such a flow. *)
Lemma one_call_runs {S} (h : forall X, llm_event X -> S -> X * S)
  (p : prog llm_event ToolExecResult) (s s' : S) (r : ToolExecResult)
  (tr : list (call llm_event)) :
  ((exists msg, p = Ret (error_result msg 1))
   \/ (exists messages cfg k,
         p = Vis (Chat messages cfg) k /\
         forall a,
           if has_content a
           then exists out, k a = Ret (ok_result out)
           else exists msg, k a = Ret (error_result msg 1))) ->
  run h p s = (r, s', tr) ->
  (length tr <= 1)%nat /\
  (is_Some (output r) <-> map (fun c => has_content (chat_answer_of c)) tr = [true]) /\
  ((exists out, r = ok_result out) \/ (exists msg, r = error_result msg 1)).
Proof.
  intros [[msg ->] | (messages & cfg & k & -> & Hk)] Hrun.
  - rewrite run_ret in Hrun. injection Hrun as <- <- <-.
    split; [simpl; lia|]. split; [|right; exists msg; reflexivity].
    split; [intros [? Hout]; discriminate Hout | discriminate].
  - rewrite run_vis in Hrun. destruct (h _ _ s) as [a s1]. cbn [fst snd] in Hrun.
    specialize (Hk a). destruct (has_content a) eqn:Ha.
    + destruct Hk as [out Hout]. rewrite Hout, run_ret in Hrun.
      injection Hrun as <- <- <-. split; [simpl; lia|]. split.
      * cbn [map chat_answer_of]. rewrite Ha.
        split; [reflexivity | intros _; eexists; reflexivity].
      * left. exists out. reflexivity.
    + destruct Hk as [msg Hmsg]. rewrite Hmsg, run_ret in Hrun.
      injection Hrun as <- <- <-. split; [simpl; lia|]. split.
      * cbn [map chat_answer_of]. rewrite Ha.
        split; [intros [? Hout]; discriminate Hout | discriminate].
      * right. exists msg. reflexivity.
Qed.

(** X8. [TextChunkTool] calls the model at most once, and its result is
    either an output with code 0 or an error with code 1: an output exactly
    when the one call was answered with content that is not empty. *)
Theorem chunk_tool_calls_once {S} (h : forall X, llm_event X -> S -> X * S)
  (self : TextChunkTool.t) (w : FS.world) (arguments : TextChunkTool.args)
  (s s' : S) (r : ToolExecResult) (tr : list (call llm_event)) :
  run h (TextChunkTool.execute self w arguments) s = (r, s', tr) ->
  (length tr <= 1)%nat /\
  (is_Some (output r) <-> map (fun c => has_content (chat_answer_of c)) tr = [true]) /\
  ((exists out, r = ok_result out) \/ (exists msg, r = error_result msg 1)).
Proof. apply one_call_runs, chunk_tool_flow. Qed.

(** X9. [MetaPromptTool] calls the model at most once, and its result is
    either an output with code 0 or an error with code 1: an output exactly
    when the one call was answered with content that is not empty. *)
Theorem meta_tool_calls_once {S} (h : forall X, llm_event X -> S -> X * S)
  (self : MetaPromptTool.t) (arguments : MetaPromptTool.args)
  (s s' : S) (r : ToolExecResult) (tr : list (call llm_event)) :
  run h (MetaPromptTool.execute self arguments) s = (r, s', tr) ->
  (length tr <= 1)%nat /\
  (is_Some (output r) <-> map (fun c => has_content (chat_answer_of c)) tr = [true]) /\
  ((exists out, r = ok_result out) \/ (exists msg, r = error_result msg 1)).
Proof. apply one_call_runs, meta_tool_flow. Qed.

End ModelCalls.

(** ** Ranges at the edge of the text *)

Section Edges.

Context `{Runtime}.

Lemma slice_past_end (text : str) (start_pos end_pos : Z) :
  0 <= start_pos -> len text <= start_pos -> slice text start_pos end_pos = [].
Proof.
  intros H0 Hlen. unfold slice, len in *.
  rewrite drop_ge by lia. apply take_nil.
Qed.

Lemma slice_to_end (text : str) (start_pos end_pos : Z) :
  0 <= start_pos -> len text <= end_pos ->
  slice text start_pos end_pos = drop (Z.to_nat start_pos) text.
Proof.
  intros H0 Hlen. unfold slice, len in *.
  apply take_ge. rewrite length_drop. lia.
Qed.

(** X10. A range without text is an error, not an empty analysis.  On a
    context file of plain text, a valid range within the reach of the host
    whose text is blank, in particular every such range that starts at or
    after the end of the text, gives the error that no content was found,
    and the model is not called. *)
Theorem blank_range_is_rejected (client : LLMClient) (w : FS.world)
  (path text query instruction : str) (chunk_id : option str)
  (start_pos end_pos : Z) :
  FS.files w !! path = Some (FS.utf8_encode text) ->
  forallb is_plain text = true ->
  path <> [] -> query <> [] -> instruction <> [] ->
  0 <= start_pos < end_pos -> end_pos <= io_limit ->
  len text <= start_pos \/ strip (slice text start_pos end_pos) = [] ->
  TextChunkTool.execute (TextChunkTool.mk (Some client)) w
    {| TextChunkTool.file_path := Some path;
       TextChunkTool.start_pos := Some start_pos;
       TextChunkTool.end_pos := Some end_pos;
       TextChunkTool.query := Some query;
       TextChunkTool.enhanced_prompt := Some instruction;
       TextChunkTool.chunk_id := chunk_id |}
  = Ret (error_result
           (lit "No content found in range " ++ str_of_Z start_pos
            ++ lit ":" ++ str_of_Z end_pos) 1).
Proof.
  intros Hfile Hplain Hp Hq Hi Hpos Hlimit Hblank.
  assert (strip (slice text start_pos end_pos) = []) as Hempty.
  { destruct Hblank as [Hpast | Hblank]; [|exact Hblank].
    rewrite slice_past_end by lia. reflexivity. }
  unfold TextChunkTool.execute.
  cbn [TextChunkTool.file_path TextChunkTool.start_pos TextChunkTool.end_pos
       TextChunkTool.query TextChunkTool.enhanced_prompt
       TextChunkTool.llm_client].
  destruct path as [|p0 path]; [congruence|].
  destruct query as [|q0 query]; [congruence|].
  destruct instruction as [|i0 instruction]; [congruence|].
  cbn [truthy is_int andb negb].
  assert ((start_pos <? 0) || (end_pos <=? start_pos) = false) as ->.
  { apply orb_false_intro; [apply Z.ltb_ge | apply Z.leb_gt]; lia. }
  assert (FS.exists_ w (p0 :: path) = true) as ->.
  { unfold FS.exists_. rewrite Hfile. reflexivity. }
  cbn [negb]. rewrite (read_at_plain w _ text) by (assumption || lia).
  rewrite Hempty. reflexivity.
Qed.

(** X11. A range that runs past the end of the text is clamped without
    notice.  On a context file of plain text, when [end_pos] is at or
    beyond the length of the text and within the reach of the host, the
    chunk submitted to the model is the text from [start_pos] to its end; the report still names the position
    [start_pos:end_pos] and gives the size of what was read. *)
Theorem long_range_is_clamped (client : LLMClient) (w : FS.world)
  (path text query instruction chunk_id : str) (start_pos end_pos : Z) :
  FS.files w !! path = Some (FS.utf8_encode text) ->
  forallb is_plain text = true ->
  path <> [] -> query <> [] -> instruction <> [] ->
  0 <= start_pos < end_pos -> len text <= end_pos <= io_limit ->
  strip (drop (Z.to_nat start_pos) text) <> [] ->
  exists k,
    TextChunkTool.execute (TextChunkTool.mk (Some client)) w
      (chunk_args_of path start_pos end_pos query instruction chunk_id)
    = Vis (Chat
             [ {| role := lit "system";
                  content := TextChunkTool.system_prompt |};
               {| role := lit "user";
                  content :=
                    TextChunkTool.user_message instruction query chunk_id
                      start_pos end_pos (drop (Z.to_nat start_pos) text) |} ]
             (TextChunkTool.request_config client)) k /\
    (forall c content,
       k (Response (Some (c :: content)))
       = Ret (ok_result
                (TextChunkTool.format_result chunk_id start_pos end_pos query
                   (drop (Z.to_nat start_pos) text) (c :: content)))) /\
    len (drop (Z.to_nat start_pos) text) = len text - start_pos.
Proof.
  intros Hfile Hplain Hp Hq Hi Hpos Hend Hblank.
  destruct (plain_chunk_is_slice client w path text query instruction chunk_id
              start_pos end_pos Hfile Hplain Hp Hq Hi Hpos (proj2 Hend))
    as [k [Hexec Hk]].
  { rewrite slice_to_end by lia. exact Hblank. }
  rewrite slice_to_end in Hexec, Hk by lia.
  exists k. split; [exact Hexec|]. split; [exact Hk|].
  unfold len. rewrite length_drop.
  assert (Z.to_nat start_pos <= length text)%nat; [|lia].
  destruct (Nat.le_gt_cases (Z.to_nat start_pos) (length text)) as [|Hgt];
    [assumption|].
  rewrite drop_ge in Hblank by lia. exfalso. apply Hblank. reflexivity.
Qed.

End Edges.

(** ** Saving and describing a context *)

Section Describing.

Import ContextFileManagerTool.
Context `{Runtime}.

Lemma utf8_decode_char (c : ascii) (bs : list N) :
  FS.utf8_decode (FS.utf8_encode_char c ++ bs)
  = option_map (cons c) (FS.utf8_decode bs).
Proof.
  unfold FS.utf8_encode_char.
  pose proof (N_ascii_bounded c) as Hc.
  pose proof (ascii_N_embedding c) as Hemb.
  set (n := N_of_ascii c) in *.
  destruct (N.ltb_spec n 128) as [Hlt|Hge].
  - cbn [app FS.utf8_decode].
    destruct (N.ltb_spec n 128); [|lia].
    rewrite Hemb. destruct (FS.utf8_decode bs); reflexivity.
  - assert (n / 64 = 2 \/ n / 64 = 3)%N as Hq.
    { assert (2 <= n / 64)%N by (apply N.div_le_lower_bound; lia).
      assert (n / 64 < 4)%N by (apply N.Div0.div_lt_upper_bound; lia). lia. }
    pose proof (N.div_mod n 64 ltac:(lia)) as Hdm.
    pose proof (N.mod_upper_bound n 64 ltac:(lia)) as Hm.
    set (q := (n / 64)%N) in *. set (m := (n mod 64)%N) in *.
    cbn [app FS.utf8_decode].
    destruct (N.ltb_spec (192 + q) 128); [lia|].
    assert (((194 <=? 192 + q) && (192 + q <=? 195))%N = true) as ->.
    { apply andb_true_intro; split; apply N.leb_le; lia. }
    assert (((128 <=? 128 + m) && (128 + m <? 192))%N = true) as ->.
    { apply andb_true_intro; split; [apply N.leb_le | apply N.ltb_lt]; lia. }
    replace (64 * (192 + q - 192) + (128 + m - 128))%N with n by lia.
    rewrite Hemb. destruct (FS.utf8_decode bs); reflexivity.
Qed.

(** Decoding undoes encoding. *)
Lemma utf8_decode_encode (s : str) : FS.utf8_decode (FS.utf8_encode s) = Some s.
Proof.
  induction s as [|c s IH]; [reflexivity|].
  unfold FS.utf8_encode in *. cbn [flat_map].
  rewrite utf8_decode_char, IH. reflexivity.
Qed.

Lemma context_path_nonempty (dir : str) :
  exists c p, FS.path_join dir (lit "context.txt") = c :: p.
Proof.
  unfold FS.path_join.
  change (startswith (lit "/") (lit "context.txt")) with false. cbv iota.
  destruct dir as [|d dir]; [do 2 eexists; reflexivity|].
  destruct (ascii_eqb _ _); do 2 eexists; reflexivity.
Qed.

(** X12. Describing after saving.  Once the agent's context tool has
    saved a text, its chunk report is made for that file, with the length
    of the text as read back as total size: every carriage return, alone
    or before a line feed, counts as one line feed, so for plain text the
    total size is the length of the text saved. *)
Theorem describe_after_save (s : state) (text : str)
  (ignored : option str) (size1 overlap1 size2 overlap2 : option Z) :
  let file := FS.path_join (temp_dir (agent s)) (lit "context.txt") in
  let chunk_size := default 8000 size2 in
  let overlap := default 200 overlap2 in
  let saved :=
    snd (execute (mk true)
           {| action := Some (lit "save_context"); context := Some text;
              chunk_size := size1; overlap := overlap1 |} s) in
  text <> [] ->
  temp_dir (agent s) ∈ FS.dirs (fs s) -> file ∉ FS.dirs (fs s) ->
  chunk_size <> overlap ->
  execute (mk true)
    {| action := Some (lit "get_chunk_info"); context := ignored;
       chunk_size := size2; overlap := overlap2 |} saved
  = (ok_result
       (chunk_report file (len (FS.universal_newlines text)) chunk_size overlap),
     saved)
  /\ (forallb is_plain text = true -> len (FS.universal_newlines text) = len text).
Proof.
  intros file chunk_size overlap saved Htext Hdir Hfile Hne.
  split; [|intros Hplain; rewrite universal_newlines_plain by exact Hplain;
           reflexivity].
  assert (saved
          = {| fs := {| FS.files := <[file := FS.utf8_encode text]> (FS.files (fs s));
                        FS.dirs := FS.dirs (fs s) |};
               agent := set_context_file_path (agent s) file |}) as Hsaved.
  { unfold saved, execute. cbn [action]. rewrite str_eqb_refl.
    unfold _save_context. cbn [context has_agent].
    destruct text as [|c text]; [congruence|]. fold file.
    unfold FS.write_text.
    rewrite (bool_decide_eq_false_2 _ Hfile), (bool_decide_eq_true_2 _ Hdir).
    reflexivity. }
  rewrite Hsaved. unfold execute. cbn [action].
  change (str_eqb (lit "get_chunk_info") (lit "save_context")) with false.
  rewrite str_eqb_refl. cbv iota.
  unfold _get_chunk_info.
  cbn [has_agent agent set_context_file_path context_file_path fs
       ContextFileManagerTool.chunk_size ContextFileManagerTool.overlap].
  fold chunk_size. fold overlap.
  destruct (context_path_nonempty (temp_dir (agent s))) as (c & p & Hpath).
  fold file in Hpath. rewrite Hpath. rewrite <- Hpath.
  unfold FS.exists_, FS.read_all. cbn [FS.files FS.dirs].
  rewrite lookup_insert_eq.
  rewrite bool_decide_eq_true_2 by (eexists; reflexivity).
  cbn [orb negb]. rewrite utf8_decode_encode.
  destruct (Z.eqb_spec (chunk_size - overlap) 0) as [Heq|_]; [lia|].
  reflexivity.
Qed.

(** X13. What the context tool leaves alone.  Whatever the action and
    its arguments, the tool makes and removes no directory and keeps the
    agent's [temp_dir]; it touches no file but the context file; when it
    returns an error the agent's attributes are as they were; and when
    the action is not [save_context] it changes nothing at all. *)
Theorem context_tool_frame (self : t) (arguments : args) (s : state) :
  let r := fst (execute self arguments s) in
  let s' := snd (execute self arguments s) in
  let file :=
    FS.path_join (if has_agent self then temp_dir (agent s) else gettempdir)
      (lit "context.txt") in
  FS.dirs (fs s') = FS.dirs (fs s) /\
  temp_dir (agent s') = temp_dir (agent s) /\
  (forall p, p <> file -> FS.files (fs s') !! p = FS.files (fs s) !! p) /\
  (output r = None -> agent s' = agent s) /\
  (action arguments <> Some (lit "save_context") -> s' = s).
Proof.
  cbv zeta. unfold execute.
  destruct (action arguments) as [a|]; cbn [str_eqb].
  2:{ repeat split; reflexivity. }
  destruct (str_eqb a (lit "save_context")) eqn:Hsave.
  - apply str_eqb_true in Hsave. subst a.
    unfold _save_context.
    destruct (context arguments) as [[|c text]|];
      try (cbn [fst snd]; repeat split; reflexivity || congruence).
    unfold FS.write_text.
    destruct (bool_decide _); [cbn [fst snd]; repeat split; reflexivity || congruence|].
    destruct (bool_decide _);
      [|destruct (bool_decide _); cbn [fst snd]; repeat split;
        reflexivity || congruence].
    cbn [fst snd fs agent FS.files FS.dirs output ok_result].
    repeat split.
    + destruct (has_agent self); reflexivity.
    + intros p Hp. apply lookup_insert_ne. congruence.
    + discriminate.
    + congruence.
  - destruct (str_eqb a (lit "get_chunk_info")).
    + destruct (_get_chunk_info self arguments s); cbn [fst snd];
        repeat split; reflexivity.
    + destruct (str_eqb a (lit "plan_chunks")); cbn [fst snd];
        repeat split; reflexivity.
Qed.

End Describing.

(** ** The ranges listed *)

Section Ranges.

Import ContextFileManagerTool.

(** A loop whose ranges, but for the last, end before the end of the
    text lists one range for each index. *)
Lemma boundaries_loop_all total_size chunk_size overlap k i :
  (forall j, Z.of_nat i <= j < Z.of_nat i + Z.of_nat k - 1 ->
             j * (chunk_size - overlap) + chunk_size < total_size) ->
  boundaries_loop total_size chunk_size overlap (map Z.of_nat (seq i k))
  = map (fun j => (j + 1, j * (chunk_size - overlap),
                   Z.min (j * (chunk_size - overlap) + chunk_size) total_size))
      (map Z.of_nat (seq i k)).
Proof.
  revert i. induction k as [|k IH]; intros i Hbefore; [reflexivity|].
  cbn [seq map boundaries_loop]. f_equal.
  destruct k as [|k].
  - destruct (Z.min _ _ >=? total_size); reflexivity.
  - destruct (Z.geb_spec (Z.min (Z.of_nat i * (chunk_size - overlap) + chunk_size)
                            total_size) total_size) as [Hge|_].
    + specialize (Hbefore (Z.of_nat i) ltac:(lia)). lia.
    + apply (IH (S i)). intros j Hj. apply Hbefore. lia.
Qed.

(** Below the last one, no range of the list reaches the end of the
    text. *)
Lemma ranges_before_last total_size chunk_size overlap j :
  0 <= overlap < chunk_size ->
  0 <= j < num_chunks total_size chunk_size overlap - 1 ->
  j * (chunk_size - overlap) + chunk_size < total_size.
Proof.
  intros Ho Hj. unfold num_chunks in Hj.
  set (step := chunk_size - overlap) in *. set (a := total_size - overlap) in *.
  assert (0 < step) by (unfold step; lia).
  assert (2 <= a / step) as Hq by lia.
  pose proof (Z.div_mod a step ltac:(lia)) as Ha.
  pose proof (Z.mod_pos_bound a step ltac:(lia)) as Hm.
  rewrite Z.max_r in Hj by lia.
  assert ((j + 1) * step < a); [nia | unfold a, step in *; lia].
Qed.

Lemma chunk_boundaries_closed_form total_size chunk_size overlap :
  0 <= overlap < chunk_size ->
  chunk_boundaries total_size chunk_size overlap
  = map (fun j => (j * (chunk_size - overlap),
                   Z.min (j * (chunk_size - overlap) + chunk_size) total_size))
      (range (num_chunks total_size chunk_size overlap)).
Proof.
  intros Ho. unfold chunk_boundaries, range.
  rewrite boundaries_loop_all.
  - rewrite map_map. reflexivity.
  - intros j Hj. apply ranges_before_last; [exact Ho|].
    assert (1 <= num_chunks total_size chunk_size overlap)
      by (unfold num_chunks; lia).
    rewrite Z2Nat.id in Hj by lia. simpl in Hj. lia.
Qed.

(** X14. The list has as many ranges as the count announced, and each is
    a range the chunk tool accepts.  For [0 <= overlap < chunk_size] and
    a text that is not empty, [get_chunk_info] lists exactly [num_chunks]
    ranges; range number [i + 1] is
    [[i * step, min(i * step + chunk_size, total_size))] with
    [step = chunk_size - overlap], and satisfies
    [0 <= start < end <= total_size]. *)
Theorem listed_ranges_are_valid total_size chunk_size overlap :
  0 <= overlap < chunk_size -> 0 < total_size ->
  length (chunk_boundaries total_size chunk_size overlap)
  = Z.to_nat (num_chunks total_size chunk_size overlap) /\
  forall i, (i < Z.to_nat (num_chunks total_size chunk_size overlap))%nat ->
    exists start_pos end_pos,
      chunk_boundaries total_size chunk_size overlap !! i
      = Some (start_pos, end_pos) /\
      start_pos = Z.of_nat i * (chunk_size - overlap) /\
      end_pos = Z.min (start_pos + chunk_size) total_size /\
      0 <= start_pos < end_pos /\ end_pos <= total_size /\
      (start_pos <? 0) || (end_pos <=? start_pos) = false.
Proof.
  intros Ho Ht. rewrite chunk_boundaries_closed_form by exact Ho.
  unfold range. rewrite !length_map, length_seq. split; [reflexivity|].
  intros i Hi. do 2 eexists. split.
  { rewrite !list_lookup_fmap, lookup_seq_lt by exact Hi. reflexivity. }
  cbn [Nat.add]. split; [reflexivity|]. split; [reflexivity|].
  assert (Z.of_nat i * (chunk_size - overlap) < total_size) as Hstart.
  { destruct i as [|i]; [lia|].
    pose proof (ranges_before_last total_size chunk_size overlap (Z.of_nat i) Ho
                  ltac:(lia)). nia. }
  assert (0 <= Z.of_nat i * (chunk_size - overlap)) by nia.
  split; [lia|]. split; [lia|].
  apply orb_false_intro; [apply Z.ltb_ge | apply Z.leb_gt]; lia.
Qed.

(** X15. Consecutive ranges overlap by exactly [overlap] characters: for
    [0 <= overlap < chunk_size], each range of the list after the first
    starts [overlap] characters before the end of the range before it. *)
Theorem consecutive_ranges_overlap total_size chunk_size overlap i a b c d :
  0 <= overlap < chunk_size ->
  chunk_boundaries total_size chunk_size overlap !! i = Some (a, b) ->
  chunk_boundaries total_size chunk_size overlap !! S i = Some (c, d) ->
  c = b - overlap.
Proof.
  intros Ho. rewrite chunk_boundaries_closed_form by exact Ho.
  unfold range. rewrite !list_lookup_fmap.
  intros Hi Hsi.
  destruct (seq 0 _ !! S i) as [j'|] eqn:Hj'; [|discriminate Hsi].
  apply lookup_seq in Hj' as [-> Hlt].
  rewrite lookup_seq_lt in Hi by lia.
  cbn in Hi, Hsi. injection Hi as <- <-. injection Hsi as <- _.
  pose proof (ranges_before_last total_size chunk_size overlap (Z.of_nat i) Ho
                ltac:(lia)).
  lia.
Qed.

(** X16. An overlap above the chunk size is not refused: whatever the
    size of the text, the list then holds the single range
    [[0, min(chunk_size, total_size))]. *)
Theorem oversized_overlap_lists_one_range total_size chunk_size overlap :
  chunk_size < overlap ->
  chunk_boundaries total_size chunk_size overlap
  = [(0, Z.min chunk_size total_size)].
Proof.
  intros Ho. unfold chunk_boundaries, range.
  assert (1 <= num_chunks total_size chunk_size overlap) as Hn
    by (unfold num_chunks; lia).
  destruct (Z.le_gt_cases total_size chunk_size) as [Hle|Hgt].
  - destruct (Z.to_nat (num_chunks total_size chunk_size overlap)) as [|n] eqn:Hnat;
      [lia|].
    cbn [seq map boundaries_loop fst snd]. change (Z.of_nat 0) with 0.
    rewrite Z.mul_0_l, Z.add_0_l.
    destruct (Z.geb_spec (Z.min chunk_size total_size) total_size); [|lia].
    reflexivity.
  - assert (num_chunks total_size chunk_size overlap = 1) as ->.
    { unfold num_chunks.
      assert ((total_size - overlap) / (chunk_size - overlap) <= 0); [|lia].
      rewrite <- Z.div_opp_opp by lia.
      replace (- (total_size - overlap)) with (overlap - total_size) by lia.
      replace (- (chunk_size - overlap)) with (overlap - chunk_size) by lia.
      destruct (Z.le_gt_cases 0 (overlap - total_size)).
      - rewrite Z.div_small by lia. lia.
      - assert ((overlap - total_size) / (overlap - chunk_size) < 0); [|lia].
        apply Z.div_lt_upper_bound; lia. }
    change (Z.to_nat 1) with 1%nat.
    cbn [seq map boundaries_loop fst snd]. change (Z.of_nat 0) with 0.
    rewrite Z.mul_0_l, Z.add_0_l.
    destruct (Z.min chunk_size total_size >=? total_size); reflexivity.
Qed.

End Ranges.

(** ** After the task *)

Section AfterTask.

Import LongContextAgent.
Context `{Runtime}.


Context `{Collaborators}.


End AfterTask.

(** ** Saving again, and reading what was saved *)

Section SavedContext.

Import ContextFileManagerTool.
Context `{Runtime}.

(** The state after a save that can write its file. *)
Lemma save_succeeds (s : state) (text : str) (size over : option Z) :
  let file := FS.path_join (temp_dir (agent s)) (lit "context.txt") in
  text <> [] ->
  temp_dir (agent s) ∈ FS.dirs (fs s) -> file ∉ FS.dirs (fs s) ->
  snd (execute (mk true)
         {| action := Some (lit "save_context"); context := Some text;
            chunk_size := size; overlap := over |} s)
  = {| fs := {| FS.files := <[file := FS.utf8_encode text]> (FS.files (fs s));
                FS.dirs := FS.dirs (fs s) |};
       agent := set_context_file_path (agent s) file |}.
Proof.
  intros file Htext Hdir Hfile. unfold execute. cbn [action].
  rewrite str_eqb_refl. unfold _save_context. cbn [context has_agent].
  destruct text as [|c text]; [congruence|]. fold file.
  unfold FS.write_text.
  rewrite (bool_decide_eq_false_2 _ Hfile), (bool_decide_eq_true_2 _ Hdir).
  reflexivity.
Qed.

(** X19. A second save replaces the context: saving one text and then
    another leaves the agent and the files as saving the second text alone
    does. *)
Theorem save_overwrites (s : state) (first second : str)
  (size1 over1 size2 over2 : option Z) :
  let file := FS.path_join (temp_dir (agent s)) (lit "context.txt") in
  let save text size over :=
    execute (mk true)
      {| action := Some (lit "save_context"); context := Some text;
         chunk_size := size; overlap := over |} in
  first <> [] -> second <> [] ->
  temp_dir (agent s) ∈ FS.dirs (fs s) -> file ∉ FS.dirs (fs s) ->
  snd (save second size2 over2 (snd (save first size1 over1 s)))
  = snd (save second size2 over2 s)
  /\ FS.files (fs (snd (save second size2 over2 s))) !! file
     = Some (FS.utf8_encode second).
Proof.
  intros file save Hfirst Hsecond Hdir Hfile. unfold save.
  rewrite (save_succeeds s first) by assumption. fold file.
  rewrite (save_succeeds s second) by assumption. fold file.
  rewrite save_succeeds by assumption.
  cbn [fs agent set_context_file_path temp_dir FS.files FS.dirs]. fold file.
  unfold set_context_file_path. cbn [temp_dir].
  rewrite insert_insert_eq. split; [reflexivity | apply lookup_insert_eq].
Qed.

(** X20. Saving, then processing a chunk.  After the agent's context
    tool has saved a plain text, the chunk tool run on the path the agent
    has recorded submits to the model the slice [text[start:end]] of the
    text saved, for every valid range within the reach of the host that is
    not blank. *)
Theorem chunk_of_saved_context (client : LLMClient) (s : state)
  (text query instruction chunk_id : str) (size over : option Z)
  (start_pos end_pos : Z) :
  let saved :=
    snd (execute (mk true)
           {| action := Some (lit "save_context"); context := Some text;
              chunk_size := size; overlap := over |} s) in
  text <> [] -> forallb is_plain text = true ->
  temp_dir (agent s) ∈ FS.dirs (fs s) ->
  FS.path_join (temp_dir (agent s)) (lit "context.txt") ∉ FS.dirs (fs s) ->
  query <> [] -> instruction <> [] ->
  0 <= start_pos < end_pos -> end_pos <= io_limit ->
  strip (slice text start_pos end_pos) <> [] ->
  exists path k,
    context_file_path (agent saved) = Some path /\
    TextChunkTool.execute (TextChunkTool.mk (Some client)) (fs saved)
      (chunk_args_of path start_pos end_pos query instruction chunk_id)
    = Vis (Chat
             [ {| role := lit "system";
                  content := TextChunkTool.system_prompt |};
               {| role := lit "user";
                  content :=
                    TextChunkTool.user_message instruction query chunk_id
                      start_pos end_pos (slice text start_pos end_pos) |} ]
             (TextChunkTool.request_config client)) k.
Proof.
  intros saved Htext Hplain Hdir Hfile Hq Hi Hpos Hlimit Hblank.
  unfold saved. rewrite save_succeeds by assumption.
  set (file := FS.path_join (temp_dir (agent s)) (lit "context.txt")).
  destruct (plain_chunk_is_slice client
              {| FS.files := <[file := FS.utf8_encode text]> (FS.files (fs s));
                 FS.dirs := FS.dirs (fs s) |}
              file text query instruction chunk_id start_pos end_pos)
    as [k [Hexec _]]; try assumption.
  - cbn [FS.files]. apply lookup_insert_eq.
  - destruct (context_path_nonempty (temp_dir (agent s))) as (c & p & Hpath).
    fold file in Hpath. rewrite Hpath. discriminate.
  - exists file, k. split; [reflexivity | exact Hexec].
Qed.

(** X21. Equal chunk size and overlap are not refused beforehand: with
    a context saved, the division by zero in the chunk count is caught and
    returned as an error of the tool, and nothing changes. *)
Theorem equal_size_and_overlap_fail (s : state) (file text : str)
  (ignored : option str) (size over : option Z) :
  context_file_path (agent s) = Some file -> file <> [] ->
  FS.files (fs s) !! file = Some (FS.utf8_encode text) ->
  default 8000 size = default 200 over ->
  execute (mk true)
    {| action := Some (lit "get_chunk_info"); context := ignored;
       chunk_size := size; overlap := over |} s
  = (error_result
       (lit "Error in context_file_manager: " ++ exn_str ZeroDivisionError) 1,
     s).
Proof.
  intros Hpath Hfile Hbytes Heq. unfold execute. cbn [action].
  change (str_eqb (lit "get_chunk_info") (lit "save_context")) with false.
  rewrite str_eqb_refl. cbv iota. unfold _get_chunk_info.
  cbn [has_agent ContextFileManagerTool.chunk_size
       ContextFileManagerTool.overlap].
  rewrite Hpath. destruct file as [|c file]; [congruence|].
  unfold FS.exists_, FS.read_all. rewrite Hbytes.
  rewrite bool_decide_eq_true_2 by (eexists; reflexivity).
  cbn [orb negb]. rewrite utf8_decode_encode.
  rewrite Heq, Z.sub_diag. reflexivity.
Qed.

End SavedContext.

(** ** The further properties at sample data *)

(** X2 at the report of [Sample.quoting_run]. *)
Lemma sanitization_cuts_at_stop_line_witness :
  EnhancedChunkTool._clean_chunk_output Sample.quoting_report
    (lit "chunk_0_50") 0 50
  = EnhancedChunkTool.clean_result (lit "chunk_0_50") 0 50
      (strip Sample.quoting_answer).
Proof.
  apply (sanitization_cuts_at_stop_line (lit "chunk_0_50") (lit "test query")
           (take 50 Sample.document) Sample.quoting_answer 0 50);
    vm_compute; reflexivity.
Defined.

(** X3 at [Sample.quoting_run]. *)
Lemma enhancement_precedes_processing_witness :
  tool_calls (snd Sample.quoting_run) = []
  \/ (exists meta meta_args x,
        tool_calls (snd Sample.quoting_run) = [MetaCalled meta meta_args x])
  \/ (exists meta meta_args mr mo chunk fp sp ep q y,
        tool_calls (snd Sample.quoting_run)
        = [ MetaCalled meta meta_args (inr mr);
            ChunkCalled chunk
              (chunk_args_of fp sp ep q
                 (EnhancedChunkTool._extract_enhanced_prompt mo)
                 (default
                    (TextChunkTool.default_chunk_id (Some sp) (Some ep))
                    (EnhancedChunkTool.chunk_id
                       (Sample.chunk_run Sample.context_file 0 50))))
              y ] /\
        error mr = None /\ output mr = Some mo /\
        EnhancedChunkTool.file_path (Sample.chunk_run Sample.context_file 0 50)
        = Some fp /\
        EnhancedChunkTool.start_pos (Sample.chunk_run Sample.context_file 0 50)
        = Some sp /\
        EnhancedChunkTool.end_pos (Sample.chunk_run Sample.context_file 0 50)
        = Some ep /\
        EnhancedChunkTool.query (Sample.chunk_run Sample.context_file 0 50)
        = Some q).
Proof.
  apply (enhancement_precedes_processing (H := Sample.runtime)
           (EnhancedChunkTool.tools_handler (H := Sample.runtime) llm_script
              (fs (Sample.saved Sample.document)))
           [ Response (Some Sample.long_instruction);
             Response (Some Sample.quoting_answer) ]
           (snd (fst Sample.quoting_run))
           Sample.orchestrator (Sample.chunk_run Sample.context_file 0 50)
           (fst (fst Sample.quoting_run)) (snd Sample.quoting_run)).
  vm_compute. reflexivity.
Defined.

(** X4 at [Sample.broken_run]. *)
Lemma chunk_failure_keeps_code_witness :
  fst (fst Sample.broken_run)
  = error_result
      (lit "Internal chunk processing failed: " ++ lit "Failed to process text chunk")
      1.
Proof.
  apply (chunk_failure_keeps_code (H := Sample.runtime)
           (EnhancedChunkTool.tools_handler (H := Sample.runtime) llm_script
              (fs (Sample.saved Sample.document)))
           [ Response (Some Sample.long_instruction); NoResponse ]
           (snd (fst Sample.broken_run))
           Sample.orchestrator (Sample.chunk_run Sample.context_file 0 50)
           (fst (fst Sample.broken_run)) (snd Sample.broken_run)
           Sample.chunk_tool
           (chunk_args_of Sample.context_file 0 50 (lit "test query")
              Sample.long_instruction (lit "chunk_0_50"))
           (error_result (lit "Failed to process text chunk") 1)
           (lit "Failed to process text chunk")).
  - vm_compute. reflexivity.
  - right. left. vm_compute. reflexivity.
  - reflexivity.
Defined.

(** X5 at [Sample.failing_run], whose arguments pass the checks. *)
Lemma validation_precedes_calls_witness :
  exists meta answer rest,
    tool_calls (snd Sample.failing_run)
    = MetaCalled meta
        {| MetaPromptTool.simple_prompt := Some (lit "short prompt");
           MetaPromptTool.task_context := Some [] |} answer
      :: rest.
Proof.
  apply (validation_precedes_calls (H := Sample.runtime)
           (EnhancedChunkTool.tools_handler (H := Sample.runtime)
              (llm_always NoResponse) (fs (Sample.saved Sample.document)))
           tt (snd (fst Sample.failing_run))
           Sample.orchestrator (Sample.chunk_run Sample.context_file 0 50)
           (fst (fst Sample.failing_run)) (snd Sample.failing_run)).
  vm_compute. reflexivity.
Defined.

(** X6 at the data of [Sample.quoting_run]. *)
Lemma chunk_run_succeeds_witness :
  fst Sample.quoting_run
  = (ok_result
       (EnhancedChunkTool.clean_result (lit "chunk_0_50") 0 50
          (strip (Py.join [NL]
                    (take_until EnhancedChunkTool.stop_line
                       (Py.split NL (strip Sample.quoting_answer)))))),
     []).
Proof.
  apply (chunk_run_succeeds (H := Sample.runtime)
           (fs (Sample.saved Sample.document)) Sample.client
           Sample.context_file Sample.document (lit "test query")
           (lit "short prompt") Sample.long_instruction Sample.quoting_answer
           None None 0 50 []);
    try discriminate; try (vm_compute; reflexivity); try lia.
Defined.

(** X7 at an enhanced prompt that starts with a separator line. *)
Lemma empty_instruction_fails_witness :
  fst (run (EnhancedChunkTool.tools_handler (H := Sample.runtime) llm_script
              (fs (Sample.saved Sample.document)))
         (EnhancedChunkTool.execute (H := Sample.runtime)
            (EnhancedChunkTool.init (Some Sample.client))
            (Sample.chunk_run Sample.context_file 0 50))
         [ Response (Some Sample.ruled_prompt);
           Response (Some Sample.quoting_answer) ])
  = (error_result
       (lit "Internal chunk processing failed: Required parameters: file_path, start_pos, end_pos, query, enhanced_prompt")
       1,
     [ Response (Some Sample.quoting_answer) ]).
Proof.
  apply (empty_instruction_fails (H := Sample.runtime)
           (fs (Sample.saved Sample.document)) Sample.client
           Sample.context_file (lit "test query") (lit "short prompt")
           Sample.ruled_prompt None None 0 50
           [ Response (Some Sample.quoting_answer) ]);
    try discriminate.
  vm_compute. reflexivity.
Defined.

(** X8 at [Sample.cafe_run]. *)
Lemma chunk_tool_calls_once_witness :
  (length (snd Sample.cafe_run) <= 1)%nat /\
  (is_Some (output (fst (fst Sample.cafe_run)))
   <-> map (fun c => has_content (chat_answer_of c)) (snd Sample.cafe_run)
       = [true]) /\
  ((exists out, fst (fst Sample.cafe_run) = ok_result out)
   \/ (exists msg, fst (fst Sample.cafe_run) = error_result msg 1)).
Proof.
  apply (chunk_tool_calls_once (H := Sample.runtime)
           (llm_always (Response (Some (lit "coffee"))))
           Sample.chunk_tool (fs (Sample.saved Sample.cafe))
           (Sample.chunk_args Sample.context_file 5 7)
           tt (snd (fst Sample.cafe_run))).
  vm_compute. reflexivity.
Defined.

(** X9 at [Sample.meta_run]. *)
Lemma meta_tool_calls_once_witness :
  (length (snd Sample.meta_run) <= 1)%nat /\
  (is_Some (output (fst (fst Sample.meta_run)))
   <-> map (fun c => has_content (chat_answer_of c)) (snd Sample.meta_run)
       = [true]) /\
  ((exists out, fst (fst Sample.meta_run) = ok_result out)
   \/ (exists msg, fst (fst Sample.meta_run) = error_result msg 1)).
Proof.
  apply (meta_tool_calls_once (H := Sample.runtime)
           (llm_always (Response (Some Sample.long_instruction)))
           (MetaPromptTool.mk (Some Sample.client))
           {| MetaPromptTool.simple_prompt := Some (lit "short prompt");
              MetaPromptTool.task_context := None |}
           tt (snd (fst Sample.meta_run))).
  vm_compute. reflexivity.
Defined.

(** X10 at a range that starts after the end of [Sample.document]. *)
Lemma blank_range_is_rejected_witness :
  TextChunkTool.execute (H := Sample.runtime) Sample.chunk_tool
    (fs (Sample.saved Sample.document))
    {| TextChunkTool.file_path := Some Sample.context_file;
       TextChunkTool.start_pos := Some 200;
       TextChunkTool.end_pos := Some 250;
       TextChunkTool.query := Some (lit "test query");
       TextChunkTool.enhanced_prompt := Some (lit "List the drinks.");
       TextChunkTool.chunk_id := None |}
  = Ret (error_result (lit "No content found in range 200:250") 1).
Proof.
  apply (blank_range_is_rejected (H := Sample.runtime) Sample.client
           (fs (Sample.saved Sample.document)) Sample.context_file
           Sample.document (lit "test query") (lit "List the drinks.")
           None 200 250);
    try discriminate; try (vm_compute; reflexivity); try lia.
  left. vm_compute. discriminate.
Defined.

(** X11 at a range that runs past the end of [Sample.document]. *)
Lemma long_range_is_clamped_witness :
  exists k,
    TextChunkTool.execute (H := Sample.runtime) Sample.chunk_tool
      (fs (Sample.saved Sample.document))
      (Sample.chunk_args Sample.context_file 100 500)
    = Vis (Chat
             [ {| role := lit "system";
                  content := TextChunkTool.system_prompt |};
               {| role := lit "user";
                  content :=
                    TextChunkTool.user_message (lit "List the drinks.")
                      (lit "test query") (lit "chunk_1") 100 500
                      (drop 100 Sample.document) |} ]
             (TextChunkTool.request_config Sample.client)) k /\
    (forall c content,
       k (Response (Some (c :: content)))
       = Ret (ok_result
                (TextChunkTool.format_result (lit "chunk_1") 100 500
                   (lit "test query") (drop 100 Sample.document)
                   (c :: content)))) /\
    len (drop 100 Sample.document) = 45.
Proof.
  apply (long_range_is_clamped (H := Sample.runtime) Sample.client
           (fs (Sample.saved Sample.document)) Sample.context_file
           Sample.document (lit "test query") (lit "List the drinks.")
           (lit "chunk_1") 100 500);
    try discriminate; try (vm_compute; reflexivity); try lia.
  split; vm_compute; discriminate.
Defined.

(** X12 at [Sample.digits] in chunks of four. *)
Lemma describe_after_save_witness :
  ContextFileManagerTool.execute (H := Sample.runtime) Sample.context_tool
    (Sample.chunk_info 4 0) (Sample.saved Sample.digits)
  = (ok_result
       (ContextFileManagerTool.chunk_report Sample.context_file
          (len (FS.universal_newlines Sample.digits)) 4 0),
     Sample.saved Sample.digits)
  /\ (forallb is_plain Sample.digits = true ->
      len (FS.universal_newlines Sample.digits) = len Sample.digits).
Proof.
  apply (describe_after_save (H := Sample.runtime) Sample.agent0
           Sample.digits None None None (Some 4) (Some 0)).
  - discriminate.
  - vm_compute. set_solver.
  - vm_compute. set_solver.
  - vm_compute. discriminate.
Defined.

(** X13 at the save of [Sample.hello]. *)
Lemma context_tool_frame_witness :
  FS.dirs (fs (Sample.saved Sample.hello)) = FS.dirs (fs Sample.agent0).
Proof.
  exact (proj1 (context_tool_frame (H := Sample.runtime) Sample.context_tool
                  (Sample.save Sample.hello) Sample.agent0)).
Defined.

(** X14 at 145 characters in chunks of 50 with overlap 10. *)
Lemma listed_ranges_are_valid_witness :
  length (ContextFileManagerTool.chunk_boundaries 145 50 10)
  = Z.to_nat (ContextFileManagerTool.num_chunks 145 50 10) /\
  forall i,
    (i < Z.to_nat (ContextFileManagerTool.num_chunks 145 50 10))%nat ->
    exists start_pos end_pos,
      ContextFileManagerTool.chunk_boundaries 145 50 10 !! i
      = Some (start_pos, end_pos) /\
      start_pos = Z.of_nat i * (50 - 10) /\
      end_pos = Z.min (start_pos + 50) 145 /\
      0 <= start_pos < end_pos /\ end_pos <= 145 /\
      (start_pos <? 0) || (end_pos <=? start_pos) = false.
Proof.
  apply (listed_ranges_are_valid 145 50 10); lia.
Defined.

(** X15 at the first two ranges of the same list. *)
Lemma consecutive_ranges_overlap_witness :
  ContextFileManagerTool.chunk_boundaries 145 50 10 !! 1%nat = Some (40, 90)
  /\ 40 = 50 - 10.
Proof.
  split; [reflexivity|].
  apply (consecutive_ranges_overlap 145 50 10 0%nat 0 50 40 90);
    [lia | reflexivity | reflexivity].
Defined.

(** X16 at chunk size 10 and overlap 50. *)
Lemma oversized_overlap_lists_one_range_witness :
  ContextFileManagerTool.chunk_boundaries 145 10 50 = [(0, 10)].
Proof.
  apply (oversized_overlap_lists_one_range 145 10 50). lia.
Defined.



(** X19 at [Sample.hello], then [Sample.digits]. *)
Lemma save_overwrites_witness :
  snd (ContextFileManagerTool.execute (H := Sample.runtime) Sample.context_tool
         (Sample.save Sample.digits) (Sample.saved Sample.hello))
  = Sample.saved Sample.digits
  /\ FS.files (fs (Sample.saved Sample.digits)) !! Sample.context_file
     = Some (FS.utf8_encode Sample.digits).
Proof.
  apply (save_overwrites (H := Sample.runtime) Sample.agent0 Sample.hello
           Sample.digits None None None None).
  - discriminate.
  - discriminate.
  - vm_compute. set_solver.
  - vm_compute. set_solver.
Defined.

(** X20 at the first fifty characters of [Sample.document]. *)
Lemma chunk_of_saved_context_witness :
  exists path k,
    context_file_path (agent (Sample.saved Sample.document)) = Some path /\
    TextChunkTool.execute (H := Sample.runtime) Sample.chunk_tool
      (fs (Sample.saved Sample.document))
      (Sample.chunk_args path 0 50)
    = Vis (Chat
             [ {| role := lit "system";
                  content := TextChunkTool.system_prompt |};
               {| role := lit "user";
                  content :=
                    TextChunkTool.user_message (lit "List the drinks.")
                      (lit "test query") (lit "chunk_1") 0 50
                      (slice Sample.document 0 50) |} ]
             (TextChunkTool.request_config Sample.client)) k.
Proof.
  apply (chunk_of_saved_context (H := Sample.runtime) Sample.client
           Sample.agent0 Sample.document (lit "test query")
           (lit "List the drinks.") (lit "chunk_1") None None 0 50);
    try discriminate; try lia.
  - vm_compute. reflexivity.
  - vm_compute. set_solver.
Defined.

(** X21 at chunk size and overlap 100 on a saved document. *)
Lemma equal_size_and_overlap_fail_witness :
  ContextFileManagerTool.execute (H := Sample.runtime) Sample.context_tool
    (Sample.chunk_info 100 100) (Sample.saved Sample.document)
  = (error_result
       (lit "Error in context_file_manager: "
        ++ exn_str (Runtime := Sample.runtime) ZeroDivisionError) 1,
     Sample.saved Sample.document).
Proof.
  apply (equal_size_and_overlap_fail (H := Sample.runtime)
           (Sample.saved Sample.document) Sample.context_file Sample.document
           None (Some 100) (Some 100)).
  - vm_compute. reflexivity.
  - discriminate.
  - vm_compute. reflexivity.
  - reflexivity.
Defined.
